(** * Near-Earth-object search: a shallow embedding of [starter/] and its checked properties

    The development follows the four Python modules of the repository:
    - [models.py]   : [NearEarthObject], [OrbitPath] and their constructors;
    - [database.py] : [NEODatabase] and [load_data];
    - [search.py]   : [Query.build_query], [Filter], [NEOSearcher.get_objects];
    - the Python run time they lean on (exceptions, [str.split], [float()],
      [str()] of a float, the comparison operators, [list(set(...))], slices).

    Python features are rendered as follows.
    - An exception is a value of [exn]; a computation that may raise returns
      [result A].  [try ... except Exception] is a [match] on the result.
    - A Python float is a binary64 datum, [spec_float] of the Standard Library
      at precision 53 and [emax] 1024.
    - An object is a record that carries its identity ([oid], Python's [id()]);
      the search never mutates an object, so a reference and the record it
      points to can be identified there.
    - A [str] is a [string] holding its UTF-8 bytes; [float()] and indexing
      read it by code point.
    - A [dict] is an association list in insertion order (Python 3.7+).
    - [list(set(xs))] has an iteration order Python does not fix; it is a
      parameter [order] constrained by [set_order_spec]. *)

From Stdlib Require Import ZArith String Ascii Bool Lia SpecFloat DecimalString.
From stdpp Require Import base list.

Local Open Scope string_scope.
Local Open Scope Z_scope.
Local Open Scope list_scope.

Local Infix "+++" := String.append (at level 60, right associativity).

(** ** The Python run time *)

(** *** Exceptions and results *)

Inductive exn : Type :=
| KeyError (key : string)      (* d[k] on a missing key, kwargs['k'] *)
| ValueError                   (* float('abc') *)
| TypeError                    (* None(...), 1.0 > 'a', d[['name']], getattr(o, None) *)
| AttributeError               (* getattr(o, 'missing') *)
| IndexError                   (* 'abc'.split(':')[1] *)
| Exception (msg : string)     (* raise Exception('...') *)
| UnsupportedFeature.          (* exceptions.UnsupportedFeature, imported by search.py *)

Inductive result (A : Type) : Type :=
| Ok (a : A)
| Raise (e : exn).
Arguments Ok {A} a.
Arguments Raise {A} e.

(** [result] is a monad in stdpp's sense: [x ← m; k] runs [m] and stops at the
    first exception. *)
#[global] Instance result_ret : MRet result := fun A a => Ok a.
#[global] Instance result_bind : MBind result := fun A B k m =>
  match m with
  | Ok a => k a
  | Raise e => Raise e
  end.

(** *** Strings *)

(** [s.split(sep)] for a one-character separator: never the empty list. *)
Fixpoint split (sep : ascii) (s : string) : list string :=
  match s with
  | EmptyString => [EmptyString]
  | String c rest =>
      if Ascii.eqb c sep then EmptyString :: split sep rest
      else match split sep rest with
           | [] => [String c EmptyString]
           | w :: ws => String c w :: ws
           end
  end.

(** [l[i]] for [i >= 0], and [l[-1]]. *)
Definition getitem {A : Type} (l : list A) (i : nat) : result A :=
  match l !! i with
  | Some x => Ok x
  | None => Raise IndexError
  end.

Definition getitem_last {A : Type} (l : list A) : result A :=
  match last l with
  | Some x => Ok x
  | None => Raise IndexError
  end.

(** Comparison of two [str]: by code point, which on the UTF-8 bytes held in a
    [string] is the byte-wise lexicographic order. *)
Definition str_eq (a b : string) : bool := String.eqb a b.
Definition str_lt (a b : string) : bool := String.ltb a b.
Definition str_le (a b : string) : bool := String.leb a b.

(** A [str] is held as the bytes of its UTF-8 encoding.  [utf8_chars] cuts
    well-formed UTF-8 into characters, each with its code point; bytes that
    are not UTF-8 (an overlong form, a surrogate, a stray byte) stand for no
    [str] and give [None]. *)
Definition is_cont (b : ascii) : bool :=
  let n := N_of_ascii b in ((128 <=? n) && (n <? 192))%N.

Definition cont_bits (b : ascii) : N := (N_of_ascii b - 128)%N.

Definition utf8_char (cp lo : N) (bytes : list ascii) (rest : option (list (N * string)))
    : option (list (N * string)) :=
  if ((lo <=? cp) && (cp <=? 1114111) && negb ((55296 <=? cp) && (cp <=? 57343)))%N
  then option_map (cons (cp, string_of_list_ascii bytes)) rest
  else None.

Fixpoint utf8_chars (l : list ascii) : option (list (N * string)) :=
  match l with
  | [] => Some []
  | b0 :: r0 =>
      let n0 := N_of_ascii b0 in
      if (n0 <? 128)%N then utf8_char n0 0 [b0] (utf8_chars r0)
      else if ((192 <=? n0) && (n0 <? 224))%N then
        match r0 with
        | b1 :: r1 =>
            if is_cont b1
            then utf8_char ((n0 - 192) * 64 + cont_bits b1) 128 [b0; b1] (utf8_chars r1)
            else None
        | _ => None
        end
      else if ((224 <=? n0) && (n0 <? 240))%N then
        match r0 with
        | b1 :: b2 :: r2 =>
            if is_cont b1 && is_cont b2
            then utf8_char (((n0 - 224) * 64 + cont_bits b1) * 64 + cont_bits b2) 2048
                           [b0; b1; b2] (utf8_chars r2)
            else None
        | _ => None
        end
      else if ((240 <=? n0) && (n0 <? 248))%N then
        match r0 with
        | b1 :: b2 :: b3 :: r3 =>
            if is_cont b1 && is_cont b2 && is_cont b3
            then utf8_char ((((n0 - 240) * 64 + cont_bits b1) * 64 + cont_bits b2) * 64
                            + cont_bits b3) 65536 [b0; b1; b2; b3] (utf8_chars r3)
            else None
        | _ => None
        end
      else None
  end.

(** [s[i]] on a [str], [i >= 0]: the character at position [i], counted in
    code points.  (Bytes that are not UTF-8 are indexed one by one.) *)
Definition str_getitem (s : string) (i : nat) : result string :=
  match utf8_chars (list_ascii_of_string s) with
  | Some cs =>
      match cs !! i with
      | Some c => Ok c.2
      | None => Raise IndexError
      end
  | None =>
      match String.get i s with
      | Some c => Ok (String c "")
      | None => Raise IndexError
      end
  end.

(** *** Floats: binary64 *)

Definition prec : Z := 53.
Definition emax : Z := 1024.
Definition float : Type := spec_float.

Definition float_eq (a b : float) : bool := SFeqb a b.
Definition float_lt (a b : float) : bool := SFltb a b.
Definition float_le (a b : float) : bool := SFleb a b.

(** The nearest binary64 (ties to even) of [(-1)^s * d * 10^k], [d >= 0]. *)
Definition float_of_decimal (s : bool) (d k : Z) : float :=
  if d =? 0 then S754_zero s
  else if 0 <=? k then binary_normalize prec emax (cond_Zopp s (d * 10 ^ k)) 0 s
  else let '(q, e, l) := SFdiv_core_binary prec emax d 0 (10 ^ (- k)) 0 in
       binary_round_aux prec emax s q e l.

Definition is_digit (c : ascii) : bool :=
  let n := N_of_ascii c in ((48 <=? n) && (n <=? 57))%N.

(** White space that [float()] strips from the two ends of the ASCII text:
    0x09-0x0d and the space. *)
Definition is_space (c : ascii) : bool :=
  let n := N_of_ascii c in
  (((9 <=? n) && (n <=? 13)) || (n =? 32))%N.

Definition lower (c : ascii) : ascii :=
  let n := N_of_ascii c in
  if ((65 <=? n) && (n <=? 90))%N then ascii_of_N (n + 32) else c.

Fixpoint lstrip (l : list ascii) : list ascii :=
  match l with
  | c :: rest => if is_space c then lstrip rest else l
  | [] => []
  end.

Definition strip (l : list ascii) : list ascii := rev (lstrip (rev (lstrip l))).

(** Underscores are legal only between two digits; they are then dropped. *)
Fixpoint drop_underscores (prev : option ascii) (l : list ascii) : option (list ascii) :=
  match l with
  | [] => match prev with
          | Some "_"%char => None
          | _ => Some []
          end
  | c :: rest =>
      if Ascii.eqb c "_" then
        match prev with
        | Some p => if is_digit p then drop_underscores (Some c) rest else None
        | None => None
        end
      else
        match prev with
        | Some "_"%char =>
            if is_digit c then option_map (cons c) (drop_underscores (Some c) rest) else None
        | _ => option_map (cons c) (drop_underscores (Some c) rest)
        end
  end.

Fixpoint span_digits (l : list ascii) : list ascii * list ascii :=
  match l with
  | c :: rest =>
      if is_digit c then let '(ds, tl) := span_digits rest in (c :: ds, tl)
      else ([], l)
  | [] => ([], [])
  end.

Definition Z_of_digits (ds : list ascii) : Z :=
  fold_left (fun acc c => 10 * acc + (Z.of_N (N_of_ascii c) - 48)) ds 0.

Definition take_sign (l : list ascii) : bool * list ascii :=
  match l with
  | "-"%char :: rest => (true, rest)
  | "+"%char :: rest => (false, rest)
  | _ => (false, l)
  end.

(** The exponent part: absent, or [e]/[E], an optional sign and digits. *)
Definition parse_exponent (l : list ascii) : option Z :=
  match l with
  | [] => Some 0
  | c :: rest =>
      if Ascii.eqb (lower c) "e" then
        let '(neg, rest) := take_sign rest in
        match span_digits rest with
        | ((_ :: _) as ds, []) => Some (cond_Zopp neg (Z_of_digits ds))
        | _ => None
        end
      else None
  end.

Definition parse_number (neg : bool) (l : list ascii) : option float :=
  let '(ip, rest) := span_digits l in
  let '(fp, rest) :=
    match rest with
    | "."%char :: rest' => span_digits rest'
    | _ => ([], rest)
    end in
  match ip ++ fp with
  | [] => None
  | ds =>
      match parse_exponent rest with
      | Some ex => Some (float_of_decimal neg (Z_of_digits ds) (ex - Z.of_nat (length fp)))
      | None => None
      end
  end.

(** Before it parses, [float()] turns a [str] that is not pure ASCII into
    ASCII text: a character below 127 stays, white space becomes a space, a
    decimal digit of any script becomes its ASCII digit, and anything else
    makes the text unreadable.  The two tables are those of Unicode 14
    (CPython 3.11): the white space above ASCII, and the code point of the
    digit zero of every block of ten decimal digits. *)
Definition unicode_spaces : list N :=
  [133; 160; 5760; 8192; 8193; 8194; 8195; 8196; 8197; 8198; 8199; 8200; 8201; 8202;
   8232; 8233; 8239; 8287; 12288]%N.

Definition decimal_zeros : list N :=
  [1632; 1776; 1984; 2406; 2534; 2662; 2790; 2918;
   3046; 3174; 3302; 3430; 3558; 3664; 3792; 3872;
   4160; 4240; 6112; 6160; 6470; 6608; 6784; 6800;
   6992; 7088; 7232; 7248; 42528; 43216; 43264; 43472;
   43504; 43600; 44016; 65296; 66720; 68912; 69734; 69872;
   69942; 70096; 70384; 70736; 70864; 71248; 71360; 71472;
   71904; 72016; 72784; 73040; 73120; 92768; 92864; 93008;
   120782; 120792; 120802; 120812; 120822; 123200; 123632; 125264;
   130032]%N.

Definition to_decimal (cp : N) : option N :=
  match List.find (fun z => (z <=? cp) && (cp <? z + 10))%N decimal_zeros with
  | Some z => Some (cp - z)%N
  | None => None
  end.

Definition to_ascii (cp : N) : option ascii :=
  if (cp <? 127)%N then Some (ascii_of_N cp)
  else if existsb (N.eqb cp) unicode_spaces then Some " "%char
  else match to_decimal cp with
       | Some d => Some (ascii_of_N (48 + d))
       | None => None
       end.

Fixpoint to_ascii_all (cps : list N) : option (list ascii) :=
  match cps with
  | [] => Some []
  | cp :: rest =>
      match to_ascii cp, to_ascii_all rest with
      | Some c, Some cs => Some (c :: cs)
      | _, _ => None
      end
  end.

Definition ascii_form (s : string) : option (list ascii) :=
  let bytes := list_ascii_of_string s in
  if forallb (fun b => (N_of_ascii b <? 128)%N) bytes then Some bytes
  else match utf8_chars bytes with
       | Some cs => to_ascii_all (map fst cs)
       | None => None
       end.

(** [float(s)] for a [str] argument. *)
Definition float_of_str (s : string) : result float :=
  match ascii_form s with
  | None => Raise ValueError
  | Some text =>
      match drop_underscores None (strip text) with
      | None => Raise ValueError
      | Some l =>
          let '(neg, body) := take_sign l in
          let word := string_of_list_ascii (map lower body) in
          if String.eqb word "inf" || String.eqb word "infinity" then Ok (S754_infinity neg)
          else if String.eqb word "nan" then Ok S754_nan
          else match parse_number neg body with
               | Some f => Ok f
               | None => Raise ValueError
               end
      end
  end.

(** [repr] of a float: the shortest decimal that reads back as the same
    binary64, the closest to it among the shortest.

    [m * 2^e] rounds from the open (odd [m]) or closed (even [m]) interval
    between the midpoints to its two neighbours.  All quantities below are
    scaled by [2^sh] so that they are integers. *)
Definition sh_of (e : Z) : Z := Z.max 0 (2 - e).

Definition is_pow2_normal (m : positive) (e : Z) : bool :=
  (Z.pos m =? 2 ^ (prec - 1)) && (3 - emax - prec <? e).

Fixpoint shortest_search (fuel : nat) (m : positive) (e q : Z) : option (Z * Z) :=
  match fuel with
  | O => None
  | S fuel' =>
      let sh := sh_of e in
      let x := Z.pos m * 2 ^ (e + sh) in
      let hhi := 2 ^ (e + sh - 1) in
      let hlo := if is_pow2_normal m e then 2 ^ (e + sh - 2) else hhi in
      let den := 10 ^ Z.max (- q) 0 in
      let unit := 10 ^ Z.max q 0 * 2 ^ sh in
      let xx := x * den in
      let xl := (x - hlo) * den in
      let xh := (x + hhi) * den in
      let inside (c : Z) :=
        let v := c * unit in
        if Z.even (Z.pos m) then (xl <=? v) && (v <=? xh) else (xl <? v) && (v <? xh) in
      let clo := xx / unit in
      let chi := clo + 1 in
      match (0 <? clo) && inside clo, inside chi with
      | true, true =>
          match (xx - clo * unit) ?= (chi * unit - xx) with
          | Lt => Some (clo, q)
          | Gt => Some (chi, q)
          | Eq => Some (if Z.even clo then clo else chi, q)
          end
      | true, false => Some (clo, q)
      | false, true => Some (chi, q)
      | false, false => shortest_search fuel' m e (q - 1)
      end
  end.

(** Where the search starts: [x < 2^b] for [b] the bit length of [m] plus [e],
    and [0.30103 > log10 2], so no power of ten at or above this one is near [x]. *)
Definition repr_start (m : positive) (e : Z) : Z :=
  (Z.pos (digits2_pos m) + e) * 30103 / 100000 + 2.

Definition digits_of_Z (c : Z) : string := NilZero.string_of_uint (N.to_uint (Z.to_N c)).

Fixpoint zeros (n : nat) : string :=
  match n with
  | O => ""
  | S n' => String "0" (zeros n')
  end.

Definition format_exp (ex : Z) : string :=
  let a := digits_of_Z (Z.abs ex) in
  (if ex <? 0 then "-" else "+") +++ (if Z.abs ex <? 10 then "0" +++ a else a).

(** The layout of [repr]: exponent notation when the decimal point would sit
    before position -4 or after position 16, one digit after the point at least
    otherwise. *)
Definition format_repr (ds : string) (decpt : Z) : string :=
  let n := Z.of_nat (String.length ds) in
  if (decpt <=? -4) || (16 <? decpt) then
    match ds with
    | String d EmptyString => String d "" +++ "e" +++ format_exp (decpt - 1)
    | String d tl => String d ("." +++ tl) +++ "e" +++ format_exp (decpt - 1)
    | EmptyString => ""
    end
  else if decpt <=? 0 then "0." +++ zeros (Z.to_nat (- decpt)) +++ ds
  else if n <=? decpt then ds +++ zeros (Z.to_nat (decpt - n)) +++ ".0"
  else substring 0 (Z.to_nat decpt) ds +++ "." +++
       substring (Z.to_nat decpt) (Z.to_nat (n - decpt)) ds.

(** [repr(f)], which is also [str(f)].  The search ends within its fuel on
    every binary64: at [q = Z.min e 0] the float itself is a multiple of
    [10^q]. *)
Definition float_repr (f : float) : string :=
  match f with
  | S754_nan => "nan"
  | S754_infinity s => if s then "-inf" else "inf"
  | S754_zero s => if s then "-0.0" else "0.0"
  | S754_finite s m e =>
      match shortest_search 1200 m e (repr_start m e) with
      | Some (c, q) =>
          let ds := digits_of_Z c in
          (if s then "-" else "") +++ format_repr ds (Z.of_nat (String.length ds) + q)
      | None => "nan"
      end
  end.

(** *** Values, truth, comparison operators and [str()] *)

(** The values that reach a comparison in [Filter.apply]: an attribute read
    off an entity (a float, or the text of a CSV cell) and the value of a
    filter (the text after the last colon of a token, or whatever a caller put
    into [Filter(...)]). *)
Inductive pyval : Type :=
| VFloat (f : float)
| VStr (s : string).

(** [str(v)] *)
Definition str (v : pyval) : string :=
  match v with
  | VStr s => s
  | VFloat f => float_repr f
  end.

(** The functions of module [operator] held by [Filter.Operators]. *)
Inductive operator : Type := op_eq | op_gt | op_ge.

(** [op(a, b)].  [==] between a float and a str is [False]; an ordering between
    them raises [TypeError]. *)
Definition operator_call (op : operator) (a b : pyval) : result bool :=
  match op, a, b with
  | op_eq, VFloat x, VFloat y => Ok (float_eq x y)
  | op_eq, VStr x, VStr y => Ok (str_eq x y)
  | op_eq, _, _ => Ok false
  | op_gt, VFloat x, VFloat y => Ok (float_lt y x)
  | op_gt, VStr x, VStr y => Ok (str_lt y x)
  | op_ge, VFloat x, VFloat y => Ok (float_le y x)
  | op_ge, VStr x, VStr y => Ok (str_le y x)
  | _, _, _ => Raise TypeError
  end.

(** Calling what [dict.get] returned: [None(...)] raises [TypeError]. *)
Definition call (f : option operator) (a b : pyval) : result bool :=
  match f with
  | Some op => operator_call op a b
  | None => Raise TypeError
  end.

(** Python truth of an optional string ([None] and [''] are false). *)
Definition truthy (o : option string) : bool :=
  match o with
  | Some s => negb (String.eqb s "")
  | None => false
  end.

(** [l[:n]] *)
Definition slice_to {A : Type} (l : list A) (n : Z) : list A :=
  if 0 <=? n then take (Z.to_nat n) l
  else take (Z.to_nat (Z.of_nat (length l) + n)) l.

(** *** Dictionaries with [str] keys, in insertion order *)

Definition dict (V : Type) : Type := list (string * V).

Fixpoint dict_get {V : Type} (d : dict V) (k : string) : option V :=
  match d with
  | [] => None
  | (k', v) :: rest => if String.eqb k' k then Some v else dict_get rest k
  end.

(** What is written between the brackets of a subscript: a str, or a list
    (unhashable). *)
Inductive key : Type :=
| KStr (s : string)
| KList (l : list string).

(** [d[k]] *)
Definition dict_getitem {V : Type} (d : dict V) (k : key) : result V :=
  match k with
  | KList _ => Raise TypeError
  | KStr s =>
      match dict_get d s with
      | Some v => Ok v
      | None => Raise (KeyError s)
      end
  end.

(** [d[k] = v]: in place when the key exists, appended otherwise. *)
Fixpoint dict_setitem {V : Type} (d : dict V) (k : string) (v : V) : dict V :=
  match d with
  | [] => [(k, v)]
  | (k', v') :: rest =>
      if String.eqb k' k then (k', v) :: rest else (k', v') :: dict_setitem rest k v
  end.

(** ** models.py *)

(** The keyword arguments of a constructor: a CSV row, column name to cell. *)
Definition kwargs : Type := dict string.

(** [kwargs[k]] *)
Definition kwarg (kw : kwargs) (k : string) : result string :=
  dict_getitem kw (KStr k).

Module OrbitPath.
Record t : Type := mk {
  oid : nat;                               (* id(self) *)
  neo_name : string;
  miss_distance_kilometers : float;
  close_approach_date : option string
}.

(** The constructor, called with a row as keyword arguments; the new object
    sits at address [a]. *)
Definition init (a : nat) (kw : kwargs) : result t :=
  n ← kwarg kw "name";
  d ← kwarg kw "miss_distance_kilometers";
  f ← float_of_str d;
  Ok {| oid := a;
        neo_name := n;
        miss_distance_kilometers := f;
        close_approach_date := dict_get kw "close_approach_date" |}.
End OrbitPath.

Module NearEarthObject.
Record t : Type := mk {
  oid : nat;                               (* id(self) *)
  orbits : list OrbitPath.t;
  id : string;
  name : string;
  diameter_min_km : float;
  is_potentially_hazardous_asteroid : string
}.

(** The constructor, called with a row as keyword arguments; the new object
    sits at address [a]. *)
Definition init (a : nat) (kw : kwargs) : result t :=
  i ← kwarg kw "id";
  n ← kwarg kw "name";
  d ← kwarg kw "estimated_diameter_min_kilometers";
  f ← float_of_str d;
  h ← kwarg kw "is_potentially_hazardous_asteroid";
  Ok {| oid := a;
        orbits := [];
        id := i;
        name := n;
        diameter_min_km := f;
        is_potentially_hazardous_asteroid := h |}.

(** [self.orbits.append(orbit)] *)
Definition update_orbits (self : t) (orbit : OrbitPath.t) : t :=
  {| oid := oid self;
     orbits := orbits self ++ [orbit];
     id := id self;
     name := name self;
     diameter_min_km := diameter_min_km self;
     is_potentially_hazardous_asteroid := is_potentially_hazardous_asteroid self |}.
End NearEarthObject.

(** What a result list may hold: search results are entries or events, and
    [dict.get] on an unknown name gives [None]. *)
Inductive entity : Type :=
| Neo (n : NearEarthObject.t)
| Path (p : OrbitPath.t)
| PyNone.

(** Object identity, the key of [set(...)] for objects without [__eq__]. *)
Inductive ident : Type :=
| IdObj (a : nat)
| IdNone.

Definition ident_of (e : entity) : ident :=
  match e with
  | Neo n => IdObj (NearEarthObject.oid n)
  | Path p => IdObj (OrbitPath.oid p)
  | PyNone => IdNone
  end.

#[global] Instance ident_eq_dec : EqDecision ident.
Proof. solve_decision. Defined.

(** The two classes, as values ([Query.ReturnObjects] maps names to them). *)
Inductive class : Type := NearEarthObject_class | OrbitPath_class.

(** The attribute names in the range of [Filter.Options]. *)
Inductive attr : Type :=
| attr_diameter_min_km
| attr_miss_distance_kilometers
| attr_is_potentially_hazardous_asteroid.

(** [getattr(e, name)], [name] the result of a [dict.get]: [None] is not an
    attribute name ([TypeError]), a missing attribute is an [AttributeError]. *)
Definition getattr (e : entity) (name : option attr) : result pyval :=
  match name with
  | None => Raise TypeError
  | Some a =>
      match e, a with
      | Neo n, attr_diameter_min_km => Ok (VFloat (NearEarthObject.diameter_min_km n))
      | Neo n, attr_is_potentially_hazardous_asteroid =>
          Ok (VStr (NearEarthObject.is_potentially_hazardous_asteroid n))
      | Path p, attr_miss_distance_kilometers =>
          Ok (VFloat (OrbitPath.miss_distance_kilometers p))
      | _, _ => Raise AttributeError
      end
  end.

(** [hasattr(e, name)]: [getattr] with [AttributeError] turned into [False]. *)
Definition hasattr (e : entity) (name : option attr) : result bool :=
  match getattr e name with
  | Ok _ => Ok true
  | Raise AttributeError => Ok false
  | Raise x => Raise x
  end.

(** ** database.py *)

Module NEODatabase.
(** [next_oid] is the allocator: the address the next new object gets. *)
Record t : Type := mk {
  filename : option string;
  neo_name : dict NearEarthObject.t;
  neo_date : dict (list NearEarthObject.t);
  next_oid : nat
}.

Definition init (filename : option string) : t :=
  {| filename := filename; neo_name := []; neo_date := []; next_oid := 0 |}.

Definition alloc (self : t) : t :=
  {| filename := filename self; neo_name := neo_name self;
     neo_date := neo_date self; next_oid := S (next_oid self) |}.

Definition set_neo_name (self : t) (d : dict NearEarthObject.t) : t :=
  {| filename := filename self; neo_name := d;
     neo_date := neo_date self; next_oid := next_oid self |}.

Definition set_neo_date (self : t) (d : dict (list NearEarthObject.t)) : t :=
  {| filename := filename self; neo_name := neo_name self;
     neo_date := d; next_oid := next_oid self |}.

(** A mutation of the object at one address is seen through every reference
    to it: the records of that address are replaced wherever the two
    dictionaries hold them. *)
Definition write (o : NearEarthObject.t) (x : NearEarthObject.t) : NearEarthObject.t :=
  if Nat.eqb (NearEarthObject.oid x) (NearEarthObject.oid o) then o else x.

Definition store (self : t) (o : NearEarthObject.t) : t :=
  {| filename := filename self;
     neo_name := map (fun kv => (fst kv, write o (snd kv))) (neo_name self);
     neo_date := map (fun kv => (fst kv, map (write o) (snd kv))) (neo_date self);
     next_oid := next_oid self |}.

(** Truth of an instance of a class without [__bool__] or [__len__]. *)
Definition object_truth (o : NearEarthObject.t) : bool := true.

(** The body of the [for row in data] loop (lines 46-58). *)
Definition load_row (self : t) (row : kwargs) : result t :=
  orbit_path ← OrbitPath.init (next_oid self) row;
  let self := alloc self in
  found ← dict_getitem (neo_name self) (KList ["name"]);          (* line 48 *)
  self ← (if negb (object_truth found) then
            neo ← NearEarthObject.init (next_oid self) row;
            n ← kwarg row "name";
            Ok (set_neo_name (alloc self) (dict_setitem (neo_name self) n neo))
          else Ok self);
  n ← kwarg row "name";
  near_earth_object ← dict_getitem (neo_name self) (KStr n);
  let near_earth_object := NearEarthObject.update_orbits near_earth_object orbit_path in
  let self := store self near_earth_object in
  d ← kwarg row "close_approach_date";
  on_date ← dict_getitem (neo_date self) (KStr d);                 (* line 55 *)
  let self := match on_date with
              | [] => set_neo_date self (dict_setitem (neo_date self) d [])
              | _ :: _ => self
              end in
  d ← kwarg row "close_approach_date";
  on_date ← dict_getitem (neo_date self) (KStr d);
  Ok (set_neo_date self (dict_setitem (neo_date self) d (on_date ++ [near_earth_object]))).

Fixpoint load_rows (self : t) (data : list kwargs) : result t :=
  match data with
  | [] => Ok self
  | row :: rest => self ← load_row self row; load_rows self rest
  end.

(** [load_data(filename)]; [data] is what [csv.DictReader] yields for the
    file.  The state an exception leaves behind is not part of the result. *)
Definition load_data (self : t) (filename : option string) (data : list kwargs) : result t :=
  if negb (truthy filename || truthy (NEODatabase.filename self)) then
    Raise (Exception "Cannot load data, no filename provided")
  else load_rows self data.
End NEODatabase.

(** ** search.py *)

(** The enumeration of date searches; [name] is the member's [.name]. *)
Module DateSearch.
Inductive t : Type := between | equals.

Definition name (d : t) : string :=
  match d with
  | between => "between"
  | equals => "equals"
  end.

Definition list : Datatypes.list string := ["between"; "equals"].
End DateSearch.

Module Filter.
Record t : Type := mk {
  field : string;
  object : string;
  operation : string;
  value : pyval
}.

Definition Options : dict attr :=
  [("diameter", attr_diameter_min_km);
   ("distance", attr_miss_distance_kilometers);
   ("is_hazardous", attr_is_potentially_hazardous_asteroid)].

Definition Operators : dict operator :=
  [("=", op_eq); (">", op_gt); (">=", op_ge)].

(** [d[k].append(x)] on a [defaultdict(list)] *)
Definition defaultdict_append (d : dict (list string)) (k x : string) : dict (list string) :=
  match dict_get d k with
  | Some l => dict_setitem d k (l ++ [x])
  | None => dict_setitem d k [x]
  end.

(** The loop of [create_filter_options] (lines 118-124).  The arguments of
    [hasattr] are evaluated left to right: the instance is built first. *)
Fixpoint create_filter_options_loop (filter_options : list string)
    (value_to_return : dict (list string)) : result (dict (list string)) :=
  match filter_options with
  | [] => Ok value_to_return
  | filter_option :: rest =>
      selectedfilter ← getitem (split ":"%char filter_option) 0;
      neo ← NearEarthObject.init 0 [];
      is_neo ← hasattr (Neo neo) (dict_get Options selectedfilter);
      if (is_neo : bool) then
        create_filter_options_loop rest
          (defaultdict_append value_to_return "NearEarthObject" filter_option)
      else
        path ← OrbitPath.init 0 [];
        is_path ← hasattr (Path path) (dict_get Options selectedfilter);
        if (is_path : bool) then
          create_filter_options_loop rest
            (defaultdict_append value_to_return "OrbitPath" filter_option)
        else create_filter_options_loop rest value_to_return
  end.

Definition create_filter_options (filter_options : list string)
    : result (dict (list string)) :=
  create_filter_options_loop filter_options [].

(** The body of the loop of [apply] (lines 138-147): does the entity pass?
    [try ... except Exception] retries on the two [str()] renderings. *)
Definition test (self : t) (near_earth_object : entity) : result bool :=
  let operation := dict_get Operators (operation self) in
  let field := dict_get Options (field self) in
  v ← getattr near_earth_object field;
  match call operation v (value self) with
  | Ok b => Ok b
  | Raise _ => call operation (VStr (str v)) (VStr (str (value self)))
  end.

(** [apply(results)]: the entities that pass, in the order of [results]; the
    first entity whose test raises ends the call. *)
Fixpoint apply (self : t) (results : list entity) : result (list entity) :=
  match results with
  | [] => Ok []
  | near_earth_object :: rest =>
      b ← test self near_earth_object;
      filtered_list ← apply self rest;
      Ok (if (b : bool) then near_earth_object :: filtered_list else filtered_list)
  end.
End Filter.

Module Query.
(** The [values] of a [Query.DateSearch]: one date, or the list
    [[start_date, end_date]]. *)
Inductive values : Type :=
| One (date : string)
| Two (start_date end_date : option string).

Record DateSearch : Type := mkDateSearch {
  type : string;
  values_of : values
}.

Module Selectors.
Record t : Type := mk {
  date_search : DateSearch;
  number : Z;
  filters : list Filter.t;
  return_object : option class
}.
End Selectors.

Definition ReturnObjects : dict class :=
  [("NEO", NearEarthObject_class); ("Path", OrbitPath_class)].

(** The query parameters; an absent or empty [filter] is the empty list. *)
Record t : Type := mk {
  date : option string;
  end_date : option string;
  start_date : option string;
  number : Z;
  filter : list string;
  return_object : string
}.

(** The inner loop of [build_query] (lines 66-70). *)
Fixpoint build_filters (key : string) (val : list string) : result (list Filter.t) :=
  match val with
  | [] => Ok []
  | selected_filter :: rest =>
      option ← getitem (split ":"%char selected_filter) 0;
      operation ← getitem (split ":"%char selected_filter) 1;
      value ← getitem_last (split ":"%char selected_filter);
      tl ← build_filters key rest;
      Ok (Filter.mk option key operation (VStr value) :: tl)
  end.

(** The outer loop (line 65), over [options.items()]. *)
Fixpoint build_all_filters (options : dict (list string)) : result (list Filter.t) :=
  match options with
  | [] => Ok []
  | (key, val) :: rest =>
      hd ← build_filters key val;
      tl ← build_all_filters rest;
      Ok (hd ++ tl)
  end.

Definition build_query (self : t) : result Selectors.t :=
  let data_search :=
    if truthy (date self) then
      mkDateSearch (DateSearch.name DateSearch.equals) (One (default "" (date self)))
    else
      mkDateSearch (DateSearch.name DateSearch.between)
                   (Two (start_date self) (end_date self)) in
  let return_to_object := dict_get ReturnObjects (return_object self) in
  filters ← match filter self with
            | [] => Ok []
            | _ :: _ =>
                options ← Filter.create_filter_options (filter self);
                build_all_filters options
            end;
  Ok (Selectors.mk data_search (number self) filters return_to_object).
End Query.

(** [set(l)] keeps one member per identity; which order [list(set(l))] lists
    them in is left to the run time.  [dedup] is one such listing, and an
    [order] is admissible when it lists the same members. *)
Fixpoint dedup (l : list entity) : list entity :=
  match l with
  | [] => []
  | x :: rest =>
      if bool_decide (ident_of x ∈ map ident_of rest) then dedup rest
      else x :: dedup rest
  end.

Definition set_order_spec (order : list entity → list entity) : Prop :=
  ∀ l, order l ≡ₚ dedup l.

Module NEOSearcher.
(** [self.date_search] is only written by [get_objects] and read back in the
    same call; it is the local [date_search] below. *)
Record t : Type := mk {
  db : NEODatabase.t;
  neo_date : dict (list NearEarthObject.t)
}.

(** [NEOSearcher(db)]: [dict(db.neo_date)] has the keys and the lists of
    [db.neo_date]. *)
Definition init (db : NEODatabase.t) : t :=
  {| db := db; neo_date := NEODatabase.neo_date db |}.

(** [key == date]: a str never equals a list. *)
Definition key_is (key : string) (date : Query.values) : bool :=
  match date with
  | Query.One d => str_eq key d
  | Query.Two _ _ => false
  end.

Fixpoint return_date_search_equal (orbit_path : dict (list NearEarthObject.t))
    (date : Query.values) : list entity :=
  match orbit_path with
  | [] => []
  | (key, value) :: rest =>
      if key_is key date then map Neo value ++ return_date_search_equal rest date
      else return_date_search_equal rest date
  end.

(** [key >= bound] and [key <= bound]; [None] as a bound raises. *)
Definition key_ge (key : string) (bound : option string) : result bool :=
  match bound with
  | Some b => Ok (str_le b key)
  | None => Raise TypeError
  end.

Definition key_le (key : string) (bound : option string) : result bool :=
  match bound with
  | Some b => Ok (str_le key b)
  | None => Raise TypeError
  end.

Fixpoint return_date_search_between (orbit_path : dict (list NearEarthObject.t))
    (start_date end_date : option string) : result (list entity) :=
  match orbit_path with
  | [] => Ok []
  | (key, value) :: rest =>
      after ← key_ge key start_date;
      inside ← (if (after : bool) then key_le key end_date else Ok false);
      tl ← return_date_search_between rest start_date end_date;
      Ok (if (inside : bool) then map Neo value ++ tl else tl)
  end.

Fixpoint return_orbit_paths_from_neos (neos : list entity) : result (list entity) :=
  match neos with
  | [] => Ok []
  | Neo neo :: rest =>
      tl ← return_orbit_paths_from_neos rest;
      Ok (map Path (NearEarthObject.orbits neo) ++ tl)
  | _ :: _ => Raise AttributeError
  end.

Fixpoint return_neo_from_orbit_path (self : t) (orbit_paths : list entity)
    : result (list entity) :=
  match orbit_paths with
  | [] => Ok []
  | Path path :: rest =>
      tl ← return_neo_from_orbit_path self rest;
      Ok (match dict_get (NEODatabase.neo_name (db self)) (OrbitPath.neo_name path) with
          | Some neo => Neo neo
          | None => PyNone
          end :: tl)
  | _ :: _ => Raise AttributeError
  end.

(** [date[i]] on the [values] of the date search. *)
Definition date_getitem (date : Query.values) (i : nat) : result (option string) :=
  match date with
  | Query.Two s e =>
      match i with
      | O => Ok s
      | S O => Ok e
      | _ => Raise IndexError
      end
  | Query.One d =>
      match str_getitem d i with
      | Ok c => Ok (Some c)
      | Raise e => Raise e
      end
  end.

(** The loop over [query.filters] (lines 193-198): the distance filter met
    last is kept aside, every other filter narrows [neos]. *)
Fixpoint apply_filters (filters : list Filter.t) (distance_filter : option Filter.t)
    (neos : list entity) : result (option Filter.t * list entity) :=
  match filters with
  | [] => Ok (distance_filter, neos)
  | selectedfilter :: rest =>
      if String.eqb (Filter.field selectedfilter) "distance" then
        apply_filters rest (Some selectedfilter) neos
      else
        neos ← Filter.apply selectedfilter neos;
        apply_filters rest distance_filter neos
  end.

(** Lines 183-191 of [get_objects]: the date selection. *)
Definition date_selection (self : t) (query : Query.Selectors.t) : result (list entity) :=
  let date_search := Query.type (Query.Selectors.date_search query) in
  let date := Query.values_of (Query.Selectors.date_search query) in
  if String.eqb date_search (DateSearch.name DateSearch.equals) then
    Ok (return_date_search_equal (neo_date self) date)
  else if String.eqb date_search (DateSearch.name DateSearch.between) then
    start_date ← date_getitem date 0;
    end_date ← date_getitem date 1;
    return_date_search_between (neo_date self) start_date end_date
  else Ok [].

(** Lines 183-207 of [get_objects]: the pair [(filtered_neos, filtered_orbits)]
    before deduplication. *)
Definition filtered (self : t) (query : Query.Selectors.t)
    : result (list entity * list entity) :=
  neos ← date_selection self query;
  found ← apply_filters (Query.Selectors.filters query) None neos;
  orbits ← return_orbit_paths_from_neos found.2;
  match found.1 with
  | Some distance_filter =>
      filtered_orbits ← Filter.apply distance_filter orbits;
      filtered_neos ← return_neo_from_orbit_path self filtered_orbits;
      Ok (filtered_neos, filtered_orbits)
  | None => Ok (found.2, orbits)
  end.

(** Lines 209-214: deduplication, shape selection and the slice.  [order] is
    the listing order of [list(set(...))]. *)
Definition get_objects (order : list entity → list entity) (self : t)
    (query : Query.Selectors.t) : result (list entity) :=
  both ← filtered self query;
  let filtered_neos := order both.1 in
  let filtered_orbits := order both.2 in
  match Query.Selectors.return_object query with
  | Some OrbitPath_class => Ok (slice_to filtered_orbits (Query.Selectors.number query))
  | _ => Ok (slice_to filtered_neos (Query.Selectors.number query))
  end.
End NEOSearcher.

(** ** writer.py *)

(** The enumeration of output formats; [value] is the member's [.value] and
    [list] lists the values in the order of definition. *)
Module OutputFormat.
Inductive t : Type := display | csv_file.

Definition value (f : t) : string :=
  match f with
  | display => "display"
  | csv_file => "csv_file"
  end.

Definition list : Datatypes.list string := map value [display; csv_file].
End OutputFormat.

(** [NEOWriter.write] talks to the console and to the file system.  Its
    effect is the sequence of calls it completes: [print(data)], [open], and
    the [writeheader] and [writerow] of the [csv.DictWriter]; what those write
    byte by byte is theirs.  Any of them may raise [IOError]; which ones do is
    the parameter [fails]. *)
Module NEOWriter.
(** The dict handed to [writerow] (lines 58-61). *)
Record row : Type := mk_row {
  id : string;
  name : string;
  diameter_min_km : float;
  orbits : list string;
  orbit_dates : list (option string)
}.

Inductive call : Type :=
| Print (data : list entity)
| Open (path mode : string)
| Writeheader (fieldnames : list string)
| Writerow (r : row).

Record t : Type := mk {
  output_formats : list string
}.

(** [NEOWriter()] *)
Definition init : t := {| output_formats := OutputFormat.list |}.

Definition fieldnames : list string :=
  ["id"; "name"; "diameter_min_km"; "orbits"; "orbit_dates"].

(** The dict display of lines 58-61: [neo_object.id] is read first, and only
    an entry has it. *)
Definition row_of (neo_object : entity) : result row :=
  match neo_object with
  | Neo n =>
      Ok {| id := NearEarthObject.id n;
            name := NearEarthObject.name n;
            diameter_min_km := NearEarthObject.diameter_min_km n;
            orbits := map OrbitPath.neo_name (NearEarthObject.orbits n);
            orbit_dates := map OrbitPath.close_approach_date (NearEarthObject.orbits n) |}
  | _ => Raise AttributeError
  end.

(** The loop of lines 57-61, then [return True]; [done] is the calls completed
    so far.  An [IOError] ends the call with [False]; any other exception
    leaves the [try]. *)
Fixpoint write_rows (fails : call → bool) (data : list entity) (done : list call)
    : list call * result bool :=
  match data with
  | [] => (done, Ok true)
  | neo_object :: rest =>
      match row_of neo_object with
      | Raise e => (done, Raise e)
      | Ok r =>
          if fails (Writerow r) then (done, Ok false)
          else write_rows fails rest (done ++ [Writerow r])
      end
  end.

(** [write(format, data)]: the calls completed and the value returned (or
    the exception raised). *)
Definition write (fails : call → bool) (self : t) (format : string) (data : list entity)
    : list call * result bool :=
  match getitem (output_formats self) 0 with
  | Raise e => ([], Raise e)
  | Ok display =>
      if String.eqb format display then
        if fails (Print data) then ([], Ok false) else ([Print data], Ok true)
      else
        match getitem (output_formats self) 1 with
        | Raise e => ([], Raise e)
        | Ok csv_file =>
            if String.eqb format csv_file then
              if fails (Open "data/neo_data_results.csv" "w") then ([], Ok false)
              else if fails (Writeheader fieldnames) then
                ([Open "data/neo_data_results.csv" "w"], Ok false)
              else
                write_rows fails data
                  [Open "data/neo_data_results.csv" "w"; Writeheader fieldnames]
            else ([], Ok false)
        end
  end.
End NEOWriter.

(** ** Vocabulary of the statements *)

(** A filter the tables know: its field is a key of [Filter.Options] and its
    operation a key of [Filter.Operators]. *)
Definition valid_filter (f : Filter.t) : bool :=
  bool_decide (is_Some (dict_get Filter.Options (Filter.field f))) &&
  bool_decide (is_Some (dict_get Filter.Operators (Filter.operation f))).

(** A date search as [build_query] makes them, with both ends of a range given. *)
Definition valid_date_search (d : Query.DateSearch) : bool :=
  match Query.values_of d with
  | Query.One _ => String.eqb (Query.type d) "equals"
  | Query.Two (Some _) (Some _) => String.eqb (Query.type d) "between"
  | Query.Two _ _ => false
  end.

(** A valid plan: a valid date search, known filters, a positive cap. *)
Definition valid_plan (q : Query.Selectors.t) : bool :=
  valid_date_search (Query.Selectors.date_search q) &&
  forallb valid_filter (Query.Selectors.filters q) &&
  (0 <? Query.Selectors.number q).

Definition is_distance (f : Filter.t) : bool := String.eqb (Filter.field f) "distance".

Definition with_filters (q : Query.Selectors.t) (fs : list Filter.t) : Query.Selectors.t :=
  Query.Selectors.mk (Query.Selectors.date_search q) (Query.Selectors.number q) fs
                     (Query.Selectors.return_object q).

(** Filters applied one after the other, each to the output of the one before. *)
Fixpoint apply_each (fs : list Filter.t) (l : list entity) : result (list entity) :=
  match fs with
  | [] => Ok l
  | f :: rest => l' ← Filter.apply f l; apply_each rest l'
  end.

(** The list the plan's result shape selects. *)
Definition shaped (q : Query.Selectors.t) (both : list entity * list entity) : list entity :=
  match Query.Selectors.return_object q with
  | Some OrbitPath_class => both.2
  | _ => both.1
  end.

(** The float attribute a field names on an entity, if any. *)
Definition float_attr (field : string) (e : entity) : option float :=
  match getattr e (dict_get Filter.Options field) with
  | Ok (VFloat x) => Some x
  | _ => None
  end.

(** Comparison of a float attribute [x] with a float [y]: numeric. *)
Definition numeric (op : operator) (x y : float) : bool :=
  match op with
  | op_eq => float_eq x y
  | op_gt => float_lt y x
  | op_ge => float_le y x
  end.

(** What the comparison of a float attribute [x] with a str [s] comes to:
    never equal; ordered as the texts [str(x)] and [s]. *)
Definition textual (op : operator) (x : float) (s : string) : bool :=
  match op with
  | op_eq => false
  | op_gt => str_lt s (float_repr x)
  | op_ge => str_le s (float_repr x)
  end.

(** [start <= key <= end] on date keys. *)
Definition in_range (start_date end_date key : string) : bool :=
  str_le start_date key && str_le key end_date.

(** *** The scenario of the specification: entry A with two events *)

Definition distance_500 : float := float_of_decimal false 500 0.
Definition distance_50 : float := float_of_decimal false 50 0.

Definition event_0101 : OrbitPath.t := OrbitPath.mk 1 "A" distance_500 (Some "2020-01-01").
Definition event_0102 : OrbitPath.t := OrbitPath.mk 2 "A" distance_50 (Some "2020-01-02").

(** Entry A; the scenario leaves its identifier, size and hazard flag open. *)
Definition entry_A (i : string) (d : float) (h : string) : NearEarthObject.t :=
  NearEarthObject.mk 0 [event_0101; event_0102] i "A" d h.

Definition index_A (i : string) (d : float) (h : string) : NEODatabase.t :=
  NEODatabase.mk None
    [("A", entry_A i d h)]
    [("2020-01-01", [entry_A i d h]); ("2020-01-02", [entry_A i d h])]
    3.

Definition query_0101 : Query.t :=
  Query.mk (Some "2020-01-01") None None 5 [] "NEO".

(** *** An entry of diameter 10.0, built by the constructor from a CSV row *)

Definition row_ten : kwargs :=
  [("id", "3542519"); ("name", "(2010 PK9)");
   ("estimated_diameter_min_kilometers", "10.0");
   ("is_potentially_hazardous_asteroid", "False");
   ("miss_distance_kilometers", "500"); ("close_approach_date", "2020-01-01")].

Definition entry_ten : NearEarthObject.t :=
  NearEarthObject.mk 0 [] "3542519" "(2010 PK9)" (float_of_decimal false 10 0) "False".

Definition entry_tenth : NearEarthObject.t :=
  NearEarthObject.mk 1 [] "2100004" "(1998 XB)" (float_of_decimal false 1 (-1)) "True".

(** The filters of the tokens [diameter:>:9], [diameter:=:10.0] and
    [diameter:>:0.3], as [build_query] makes them. *)
Definition diameter_gt_9 : Filter.t := Filter.mk "diameter" "NearEarthObject" ">" (VStr "9").
Definition diameter_eq_10 : Filter.t := Filter.mk "diameter" "NearEarthObject" "=" (VStr "10.0").
Definition diameter_gt_03 : Filter.t := Filter.mk "diameter" "NearEarthObject" ">" (VStr "0.3").

(** Can the filter read its field off the entity? *)
Definition readable (f : Filter.t) (e : entity) : bool :=
  match getattr e (dict_get Filter.Options (Filter.field f)) with
  | Ok _ => true
  | Raise _ => false
  end.

(** Comparison of two texts. *)
Definition text_cmp (op : operator) (a b : string) : bool :=
  match op with
  | op_eq => str_eq a b
  | op_gt => str_lt b a
  | op_ge => str_le b a
  end.

(** Did the computation raise [UnsupportedFeature]? *)
Definition unsupported {A : Type} (r : result A) : bool :=
  match r with
  | Raise UnsupportedFeature => true
  | _ => false
  end.

(** Raw queries for the exact date 2020-01-01: one with a result-shape name
    outside [Query.ReturnObjects], one with a filter on an unknown field. *)
Definition query_planet : Query.t :=
  Query.mk (Some "2020-01-01") None None 5 [] "Planet".

Definition query_foo : Query.t :=
  Query.mk (Some "2020-01-01") None None 5 ["foo:=:1"] "NEO".

(** The date search [build_query] derives from the date parameters. *)
Definition date_search_of (q : Query.t) : Query.DateSearch :=
  if truthy (Query.date q) then Query.mkDateSearch "equals" (Query.One (default "" (Query.date q)))
  else Query.mkDateSearch "between" (Query.Two (Query.start_date q) (Query.end_date q)).

Definition is_neo (e : entity) : bool :=
  match e with
  | Neo _ => true
  | _ => false
  end.

Definition is_path (e : entity) : bool :=
  match e with
  | Path _ => true
  | _ => false
  end.

(** Does the date search select the entries registered under [key]? *)
Definition selects (d : Query.DateSearch) (key : string) : bool :=
  match Query.values_of d with
  | Query.One date => str_eq key date
  | Query.Two (Some s) (Some e) => in_range s e key
  | Query.Two _ _ => false
  end.

Definition others (fs : list Filter.t) : list Filter.t :=
  List.filter (λ f, negb (is_distance f)) fs.

Definition distances (fs : list Filter.t) : list Filter.t :=
  List.filter is_distance fs.

(** Distance filters of the tokens [distance:>:100] and [distance:>:9]. *)
Definition distance_gt_100 : Filter.t := Filter.mk "distance" "OrbitPath" ">" (VStr "100").
Definition distance_gt_9 : Filter.t := Filter.mk "distance" "OrbitPath" ">" (VStr "9").

(** The plan of the scenario, and the same over the range of both dates. *)
Definition plan_0101 : Query.Selectors.t :=
  Query.Selectors.mk (Query.mkDateSearch "equals" (Query.One "2020-01-01")) 5 []
                     (Some NearEarthObject_class).

Definition plan_range : Query.Selectors.t :=
  Query.Selectors.mk
    (Query.mkDateSearch "between" (Query.Two (Some "2020-01-01") (Some "2020-01-02"))) 5 []
    (Some NearEarthObject_class).

(** An index as concrete as the scenario's. *)
Definition index_A0 : NEODatabase.t := index_A "2000433" (float_of_decimal false 5 (-1)) "False".

(** A plan for a date under which the index of the scenario holds nothing. *)
Definition plan_1999 : Query.Selectors.t :=
  Query.Selectors.mk (Query.mkDateSearch "equals" (Query.One "1999-12-31")) 5 []
                     (Some NearEarthObject_class).

(** *** Vocabulary of the further properties *)

(** Does the entity pass the filter's test (without raising)? *)
Definition passes (f : Filter.t) (e : entity) : bool :=
  match Filter.test f e with
  | Ok true => true
  | _ => false
  end.

(** Does the filter's test return on the entity? *)
Definition testable (f : Filter.t) (e : entity) : bool :=
  match Filter.test f e with
  | Ok _ => true
  | Raise _ => false
  end.

Definition colon_free (s : string) : bool :=
  forallb (λ c, negb (Ascii.eqb c ":")) (list_ascii_of_string s).

(** The raw query with another name for the result shape. *)
Definition with_return_object (q : Query.t) (name : string) : Query.t :=
  Query.mk (Query.date q) (Query.end_date q) (Query.start_date q) (Query.number q)
           (Query.filter q) name.

Definition with_number (q : Query.Selectors.t) (n : Z) : Query.Selectors.t :=
  Query.Selectors.mk (Query.Selectors.date_search q) n (Query.Selectors.filters q)
                     (Query.Selectors.return_object q).

(** An entry is consistently indexed when its name leads back to it and its
    events carry its name. *)
Definition consistent (self : NEOSearcher.t) (n : NearEarthObject.t) : Prop :=
  dict_get (NEODatabase.neo_name (NEOSearcher.db self)) (NearEarthObject.name n) = Some n ∧
  Forall (λ p, OrbitPath.neo_name p = NearEarthObject.name n) (NearEarthObject.orbits n).

(** An environment in which no call raises [IOError]. *)
Definition never_fails (c : NEOWriter.call) : bool := false.

(** An environment without the directory [data/]: [open] raises. *)
Definition open_fails (c : NEOWriter.call) : bool :=
  match c with
  | NEOWriter.Open _ _ => true
  | _ => false
  end.

(** A row without the column [miss_distance_kilometers], and one whose
    distance is not a number. *)
Definition row_no_distance : kwargs := [("id", "1"); ("name", "A")].
Definition row_bad_distance : kwargs :=
  [("id", "1"); ("name", "A"); ("miss_distance_kilometers", "far")].

(** Plans over the index of entry A: an unknown kind of date search with a
    filter no table knows, a range without its ends, the events of a date. *)
Definition filter_unknown : Filter.t := Filter.mk "colour" "NearEarthObject" "~" (VStr "red").

Definition plan_unknown_mode : Query.Selectors.t :=
  Query.Selectors.mk (Query.mkDateSearch "after" (Query.One "2020-01-01")) 5
                     [filter_unknown] (Some NearEarthObject_class).

Definition plan_no_dates : Query.Selectors.t :=
  Query.Selectors.mk (Query.mkDateSearch "between" (Query.Two None None)) 5 []
                     (Some NearEarthObject_class).

Definition plan_paths : Query.Selectors.t :=
  Query.Selectors.mk (Query.mkDateSearch "equals" (Query.One "2020-01-01")) 5 []
                     (Some OrbitPath_class).

(** An index whose only entry has an event under a name that is no key of
    [neo_name], and a plan with a distance filter over it. *)
Definition entry_ten_orphan : NearEarthObject.t :=
  NearEarthObject.mk 0 [OrbitPath.mk 1 "(unknown)" distance_500 (Some "2020-01-01")]
                     "3542519" "(2010 PK9)" (float_of_decimal false 10 0) "False".

Definition index_orphan : NEODatabase.t :=
  NEODatabase.mk None [("(2010 PK9)", entry_ten_orphan)]
                 [("2020-01-01", [entry_ten_orphan])] 2.

Definition plan_orphan : Query.Selectors.t :=
  Query.Selectors.mk (Query.mkDateSearch "equals" (Query.One "2020-01-01")) 5
                     [distance_gt_100] (Some NearEarthObject_class).

(** The row written for an entry. *)
Definition entry_row (n : NearEarthObject.t) : NEOWriter.row :=
  NEOWriter.mk_row (NearEarthObject.id n) (NearEarthObject.name n)
                   (NearEarthObject.diameter_min_km n)
                   (map OrbitPath.neo_name (NearEarthObject.orbits n))
                   (map OrbitPath.close_approach_date (NearEarthObject.orbits n)).

(** The two calls that open the results file. *)
Definition csv_opening : list NEOWriter.call :=
  [NEOWriter.Open "data/neo_data_results.csv" "w"; NEOWriter.Writeheader NEOWriter.fieldnames].

(** The distance filter of the token [distance:>:50.0], and the plan over the
    range of both dates that asks for events. *)
Definition distance_gt_50 : Filter.t := Filter.mk "distance" "OrbitPath" ">" (VStr "50.0").

Definition plan_range_paths : Query.Selectors.t :=
  Query.Selectors.mk
    (Query.mkDateSearch "between" (Query.Two (Some "2020-01-01") (Some "2020-01-02"))) 5 []
    (Some OrbitPath_class).

(** * Properties *)

(** ** The run time on examples *)

Example float_of_str_ten :
  float_of_str "10.0" = Ok (S754_finite false 5629499534213120 (-49)) ∧
  float_of_str " 1_0e0 " = float_of_str "10.0" ∧
  float_of_str "1e400" = Ok (S754_infinity false) ∧
  float_of_str "NaN" = Ok S754_nan ∧
  float_of_str "ten" = Raise ValueError ∧
  float_of_str "" = Raise ValueError.
Proof. vm_compute. repeat split. Qed.

(** [float()] reads the decimal digits of every script and strips Unicode
    white space; [s[i]] counts characters, not bytes. *)
Example float_of_str_unicode :
  float_of_str "１０" = float_of_str "10" ∧
  float_of_str " ٣.٥　" = float_of_str "3.5" ∧
  float_of_str "５e１" = float_of_str "50" ∧
  float_of_str "²" = Raise ValueError ∧
  float_of_str "ＩＮＦ" = Raise ValueError ∧
  str_getitem "é" 0 = Ok "é" ∧
  str_getitem "é" 1 = Raise IndexError ∧
  str_getitem "aéb" 2 = Ok "b".
Proof. vm_compute. repeat split. Qed.

Example OrbitPath_init_unicode :
  OrbitPath.init 1 [("name", "A"); ("miss_distance_kilometers", "５００")] =
    Ok (OrbitPath.mk 1 "A" (float_of_decimal false 500 0) None).
Proof. vm_compute. reflexivity. Qed.

Example float_repr_examples :
  float_repr (float_of_decimal false 10 0) = "10.0" ∧
  float_repr (float_of_decimal false 500 0) = "500.0" ∧
  float_repr (float_of_decimal false 1 (-1)) = "0.1" ∧
  float_repr (float_of_decimal false 1 23) = "1e+23" ∧
  float_repr (float_of_decimal false 1 16) = "1e+16" ∧
  float_repr (float_of_decimal false 1 15) = "1000000000000000.0" ∧
  float_repr (float_of_decimal false 1 (-5)) = "1e-05" ∧
  float_repr (float_of_decimal true 5 (-324)) = "-5e-324" ∧
  float_repr (float_of_decimal false 30000000000000004 (-17)) = "0.30000000000000004".
Proof. vm_compute. repeat split. Qed.

Example split_examples :
  split ":" "distance:>:100" = ["distance"; ">"; "100"] ∧
  split ":" "diameter" = ["diameter"] ∧
  split ":" "" = [""] ∧
  split ":" "a::b" = ["a"; ""; "b"].
Proof. repeat split. Qed.

Example slice_to_examples :
  slice_to [1; 2; 3] 2 = [1; 2] ∧ slice_to [1; 2; 3] 5 = [1; 2; 3] ∧
  slice_to [1; 2; 3] 0 = [] ∧ slice_to [1; 2; 3] (-1) = [1; 2] ∧
  slice_to [1; 2; 3] (-7) = [].
Proof. repeat split. Qed.

(** A float and a str are never equal and cannot be ordered. *)
Example operator_call_mixed (x : float) (s : string) :
  operator_call op_eq (VFloat x) (VStr s) = Ok false ∧
  operator_call op_gt (VFloat x) (VStr s) = Raise TypeError ∧
  operator_call op_ge (VFloat x) (VStr s) = Raise TypeError.
Proof. repeat split. Qed.

(** ** The result monad *)

Lemma bind_Ok {A B : Type} (m : result A) (k : A → result B) (b : B) :
  (m ≫= k) = Ok b → ∃ a, m = Ok a ∧ k a = Ok b.
Proof. destruct m as [a|e]; simpl; [eauto | discriminate]. Qed.

Lemma bind_Ok_l {A B : Type} (m : result A) (k : A → result B) (a : A) :
  m = Ok a → (m ≫= k) = k a.
Proof. now intros ->. Qed.

Lemma bind_Raise_l {A B : Type} (m : result A) (k : A → result B) (e : exn) :
  m = Raise e → (m ≫= k) = Raise e.
Proof. now intros ->. Qed.

(** Splits a hypothesis [(x ← m; k) = Ok b] into its two steps. *)
Ltac bind_inv H :=
  let a := fresh "a" in
  let Ha := fresh "Ha" in
  apply bind_Ok in H as (a & Ha & H).

(** ** [Filter.apply] *)

Section Apply.
Variable f : Filter.t.

Lemma apply_Ok_cons x xs ys :
  Filter.apply f (x :: xs) = Ok ys →
  ∃ b zs, Filter.test f x = Ok b ∧ Filter.apply f xs = Ok zs ∧
          ys = if b then x :: zs else zs.
Proof.
  simpl. intros H. bind_inv H. bind_inv H. injection H as <-. eauto.
Qed.

Lemma apply_Ok_sublist xs : ∀ ys, Filter.apply f xs = Ok ys → ys `sublist_of` xs.
Proof.
  induction xs as [|x xs IH]; intros ys H.
  - injection H as <-. constructor.
  - apply apply_Ok_cons in H as (b & zs & _ & Hzs & ->).
    destruct b; [apply sublist_skip | apply sublist_cons]; auto.
Qed.

Lemma apply_Ok_test xs : ∀ ys, Filter.apply f xs = Ok ys →
  Forall (λ y, Filter.test f y = Ok true) ys.
Proof.
  induction xs as [|x xs IH]; intros ys H.
  - injection H as <-. constructor.
  - apply apply_Ok_cons in H as (b & zs & Hb & Hzs & ->).
    destruct b; [constructor|]; auto.
Qed.

Lemma apply_all_pass ys :
  Forall (λ y, Filter.test f y = Ok true) ys → Filter.apply f ys = Ok ys.
Proof.
  induction 1 as [|y ys Hy _ IH]; [done|].
  simpl. now rewrite Hy, IH.
Qed.

(** When every test returns, so does [apply]. *)
Lemma apply_total xs :
  Forall (λ x, ∃ b, Filter.test f x = Ok b) xs → ∃ ys, Filter.apply f xs = Ok ys.
Proof.
  induction 1 as [|x xs [b Hb] _ [ys IH]]; [by eexists|].
  simpl. rewrite Hb, IH. simpl. eauto.
Qed.
End Apply.

(** ** What [Filter.test] compares *)

Lemma test_total (f : Filter.t) (e : entity) :
  valid_filter f = true → readable f e = true → ∃ b, Filter.test f e = Ok b.
Proof.
  unfold valid_filter, readable, Filter.test. intros Hv Hr.
  apply andb_prop in Hv as [_ Hop]. apply bool_decide_eq_true in Hop as [op Hop].
  rewrite Hop.
  destruct (getattr e _) as [v|]; [simpl | discriminate].
  destruct op, v, (Filter.value f); simpl; eauto.
Qed.

Lemma apply_filter_by (f : Filter.t) (p : entity → bool) (xs : list entity) :
  Forall (λ e, Filter.test f e = Ok (p e)) xs →
  Filter.apply f xs = Ok (List.filter p xs).
Proof.
  induction 1 as [|x xs Hx _ IH]; [done|].
  simpl. rewrite Hx, IH. simpl. now destruct (p x).
Qed.

Lemma test_float_attr (f : Filter.t) (op : operator) (e : entity) (x : float) :
  dict_get Filter.Operators (Filter.operation f) = Some op →
  float_attr (Filter.field f) e = Some x →
  Filter.test f e = Ok (match Filter.value f with
                        | VStr s => textual op x s
                        | VFloat y => numeric op x y
                        end).
Proof.
  unfold float_attr, Filter.test. intros -> Hx.
  destruct (getattr e _) as [[x'|]|]; try discriminate.
  injection Hx as ->. simpl.
  now destruct op, (Filter.value f).
Qed.

Lemma test_str_attr (f : Filter.t) (op : operator) (e : entity) (h s : string) :
  dict_get Filter.Operators (Filter.operation f) = Some op →
  getattr e (dict_get Filter.Options (Filter.field f)) = Ok (VStr h) →
  Filter.value f = VStr s →
  Filter.test f e = Ok (text_cmp op h s).
Proof.
  unfold Filter.test. intros -> -> ->. now destruct op.
Qed.

Lemma apply_returns (f : Filter.t) (xs : list entity) :
  valid_filter f = true → forallb (readable f) xs = true →
  ∃ ys, Filter.apply f xs = Ok ys.
Proof.
  intros Hv Hr. apply apply_total.
  apply Forall_forall. intros x Hx. apply test_total; [done|].
  rewrite forallb_forall in Hr. apply Hr. now apply list_elem_of_In.
Qed.

(** C7: the list [Filter.apply] returns is a subsequence of its input (same
    relative order, only members of the input), hence no longer than the
    input; and it does return one for a filter the tables know on entities
    that have the field. *)
Theorem apply_subsequence (f : Filter.t) (xs : list entity) :
  (∀ ys, Filter.apply f xs = Ok ys →
         ys `sublist_of` xs ∧ (length ys ≤ length xs)%nat) ∧
  (valid_filter f = true → forallb (readable f) xs = true →
   ∃ ys, Filter.apply f xs = Ok ys).
Proof.
  split.
  - intros ys H. apply apply_Ok_sublist in H.
    split; [done | by apply sublist_length].
  - apply apply_returns.
Qed.

Lemma apply_subsequence_witness :
  ([Neo entry_ten] `sublist_of` [Neo entry_ten; Neo entry_tenth] ∧ (1 ≤ 2)%nat) ∧
  ∃ ys, Filter.apply diameter_gt_03 [Neo entry_ten; Neo entry_tenth] = Ok ys.
Proof.
  destruct (apply_subsequence diameter_gt_03 [Neo entry_ten; Neo entry_tenth]) as [H1 H2].
  split.
  - apply (H1 [Neo entry_ten]). vm_compute. reflexivity.
  - apply H2; vm_compute; reflexivity.
Defined.

(** C8: applying a filter to its own output changes nothing; as a composition,
    [apply] after [apply] is [apply] (also when the first call raises), and for
    a filter the tables know on entities that have the field both calls
    return the same list. *)
Theorem apply_idempotent (f : Filter.t) (xs : list entity) :
  (Filter.apply f xs ≫= Filter.apply f) = Filter.apply f xs ∧
  (valid_filter f = true → forallb (readable f) xs = true →
   ∃ ys, Filter.apply f xs = Ok ys ∧ Filter.apply f ys = Ok ys).
Proof.
  assert (Hidem : ∀ ys, Filter.apply f xs = Ok ys → Filter.apply f ys = Ok ys).
  { intros ys H. apply apply_all_pass. eapply apply_Ok_test, H. }
  split.
  - destruct (Filter.apply f xs) as [ys|e] eqn:H; simpl; auto.
  - intros Hv Hr. destruct (apply_returns f xs Hv Hr) as [ys Hys]. eauto.
Qed.

Lemma apply_idempotent_witness :
  ∃ ys, Filter.apply diameter_gt_03 [Neo entry_ten; Neo entry_tenth] = Ok ys ∧
        Filter.apply diameter_gt_03 ys = Ok ys.
Proof.
  apply (proj2 (apply_idempotent diameter_gt_03 [Neo entry_ten; Neo entry_tenth]));
    vm_compute; reflexivity.
Defined.

(** C1, as amended: on an entity whose attribute is a float, a filter whose
    value is a str (what [build_query] makes of a token) passes [>] and [>=] by
    the order of the two texts, [str(attribute)] and the value; only a filter
    whose value is itself a float is compared numerically.  [=] on the hazard
    flag is equality of the flag's text and the value's text. *)
Theorem apply_compares (f : Filter.t) (op : operator) :
  dict_get Filter.Operators (Filter.operation f) = Some op →
  (∀ s xs, Filter.value f = VStr s → op ≠ op_eq →
     Forall (λ e, is_Some (float_attr (Filter.field f) e)) xs →
     Filter.apply f xs =
       Ok (List.filter (λ e, from_option (λ x, text_cmp op (float_repr x) s) false
                                         (float_attr (Filter.field f) e)) xs)) ∧
  (∀ y xs, Filter.value f = VFloat y →
     Forall (λ e, is_Some (float_attr (Filter.field f) e)) xs →
     Filter.apply f xs =
       Ok (List.filter (λ e, from_option (λ x, numeric op x y) false
                                         (float_attr (Filter.field f) e)) xs)) ∧
  (∀ s ns, Filter.value f = VStr s → Filter.field f = "is_hazardous" → op = op_eq →
     Filter.apply f (map Neo ns) =
       Ok (List.filter
             (λ e, match e with
                   | Neo n => str_eq (NearEarthObject.is_potentially_hazardous_asteroid n) s
                   | _ => false
                   end) (map Neo ns))).
Proof.
  intros Hop. repeat split.
  - intros s xs Hs Hne Hxs. apply apply_filter_by.
    eapply Forall_impl; [exact Hxs|]. intros e [x Hx]. cbv beta.
    rewrite Hx. simpl. rewrite (test_float_attr f op e x Hop Hx), Hs.
    now destruct op.
  - intros y xs Hy Hxs. apply apply_filter_by.
    eapply Forall_impl; [exact Hxs|]. intros e [x Hx]. cbv beta.
    rewrite Hx. simpl. rewrite (test_float_attr f op e x Hop Hx). now rewrite Hy.
  - intros s ns Hs Hf ->. apply apply_filter_by.
    apply Forall_forall. intros e He. apply list_elem_of_fmap in He as (n & -> & _).
    apply (test_str_attr f op_eq); [done | | done]. now rewrite Hf.
Qed.

Lemma apply_compares_witness :
  Filter.apply diameter_gt_03 [Neo entry_ten; Neo entry_tenth] =
    Ok (List.filter (λ e, from_option (λ x, text_cmp op_gt (float_repr x) "0.3") false
                                      (float_attr "diameter" e))
                    [Neo entry_ten; Neo entry_tenth]).
Proof.
  apply (proj1 (apply_compares diameter_gt_03 op_gt eq_refl) "0.3"
               [Neo entry_ten; Neo entry_tenth] eq_refl).
  - discriminate.
  - repeat constructor; vm_compute; eauto.
Defined.

(** C1 as stated fails: the entry of diameter 10.0 does not pass [diameter:>:9]
    although 10.0 > 9.0, and does not pass [diameter:=:10.0] although
    10.0 == 10.0. *)
Lemma apply_not_numeric :
  NearEarthObject.init 0 row_ten = Ok entry_ten ∧
  Filter.apply diameter_gt_9 [Neo entry_ten] = Ok [] ∧
  (y ← float_of_str "9";
   Ok (numeric op_gt (NearEarthObject.diameter_min_km entry_ten) y)) = Ok true ∧
  Filter.apply diameter_eq_10 [Neo entry_ten] = Ok [] ∧
  (y ← float_of_str "10.0";
   Ok (numeric op_eq (NearEarthObject.diameter_min_km entry_ten) y)) = Ok true.
Proof. vm_compute. repeat split. Qed.

(** ** [return_date_search_between] *)

(** The order on date keys is the lexicographic one. *)
Lemma str_le_lexicographic (a b : ascii) (s t : string) :
  str_le "" t = true ∧
  str_le (String a s) "" = false ∧
  str_le (String a s) (String b t) =
    match (N_of_ascii a ?= N_of_ascii b)%N with
    | Lt => true
    | Eq => str_le s t
    | Gt => false
    end.
Proof.
  unfold str_le, String.leb. repeat split.
  - now destruct t.
  - simpl. unfold Ascii.compare. now destruct (N_of_ascii a ?= N_of_ascii b)%N.
Qed.

(** C5: between two given dates the date selection returns, in the order of
    the index, the entries registered under every key [k] with
    [start <= k <= end] (both ends included) and under no other key; an entry
    registered under several such keys is returned once for each. *)
Theorem between_collects (orbit_path : dict (list NearEarthObject.t))
    (start_date end_date : string) :
  NEOSearcher.return_date_search_between orbit_path (Some start_date) (Some end_date) =
    Ok (concat (map (λ kv, map Neo kv.2)
                    (List.filter (λ kv, in_range start_date end_date kv.1) orbit_path))) ∧
  ∀ x, x ∈ concat (map (λ kv, map Neo kv.2)
                      (List.filter (λ kv, in_range start_date end_date kv.1) orbit_path)) ↔
       ∃ key value, (key, value) ∈ orbit_path ∧
                    str_le start_date key = true ∧ str_le key end_date = true ∧
                    x ∈ map Neo value.
Proof.
  split.
  - induction orbit_path as [|[key value] rest IH]; [done|].
    simpl. rewrite IH. unfold in_range. simpl.
    now destruct (str_le start_date key), (str_le key end_date).
  - intros x. induction orbit_path as [|[key value] rest IH]; simpl.
    + split; [intros H; inversion H | intros (k & v & H & _); inversion H].
    + destruct (in_range start_date end_date key) eqn:Hr; simpl.
      * rewrite elem_of_app, IH. unfold in_range in Hr.
        apply andb_prop in Hr as [H1 H2]. split.
        -- intros [Hx | (k & v & Hin & Hk)].
           ++ exists key, value. repeat split; auto. left.
           ++ exists k, v. split; [by right | done].
        -- intros (k & v & Hin & Hk1 & Hk2 & Hx).
           apply elem_of_cons in Hin as [[= -> ->] | Hin]; [by left|].
           right. eauto 6.
      * rewrite IH. split.
        -- intros (k & v & Hin & Hk). exists k, v. split; [by right | done].
        -- intros (k & v & Hin & Hk1 & Hk2 & Hx).
           apply elem_of_cons in Hin as [[= -> ->] | Hin]; [|eauto 6].
           unfold in_range in Hr. rewrite Hk1, Hk2 in Hr. discriminate.
Qed.

(** ** [Query.build_query] *)

(** Building the instance [NearEarthObject()] without arguments raises, so a
    non-empty list of filter tokens never gets classified. *)
Lemma create_filter_options_raises (filter_option : string) (rest : list string) :
  Filter.create_filter_options (filter_option :: rest) = Raise (KeyError "id").
Proof.
  unfold Filter.create_filter_options. simpl.
  unfold getitem. destruct (split ":" filter_option) as [|w ws] eqn:Hs; simpl.
  - destruct filter_option as [|c r]; simpl in Hs; [discriminate|].
    destruct (Ascii.eqb c ":"); [discriminate|].
    destruct (split ":" r); discriminate.
  - reflexivity.
Qed.

Lemma build_query_outcome (q : Query.t) :
  Query.build_query q =
    match Query.filter q with
    | [] => Ok (Query.Selectors.mk (date_search_of q) (Query.number q) []
                  (dict_get Query.ReturnObjects (Query.return_object q)))
    | _ :: _ => Raise (KeyError "id")
    end.
Proof.
  unfold Query.build_query, date_search_of.
  destruct (Query.filter q) as [|tok toks]; [done|].
  now rewrite create_filter_options_raises.
Qed.

(** C2, as amended: [build_query] never fails with [UnsupportedFeature]; for a
    raw query without filter tokens it builds a plan whatever the name of the
    result shape, and a name that is not recognised becomes an absent shape. *)
Theorem build_query_no_validation (q : Query.t) :
  unsupported (Query.build_query q) = false ∧
  (Query.filter q = [] →
   ∃ plan, Query.build_query q = Ok plan ∧
           Query.Selectors.filters plan = [] ∧
           Query.Selectors.return_object plan =
             dict_get Query.ReturnObjects (Query.return_object q)).
Proof.
  rewrite build_query_outcome. split.
  - now destruct (Query.filter q).
  - intros ->. eauto.
Qed.

Lemma build_query_no_validation_witness :
  ∃ plan, Query.build_query query_planet = Ok plan ∧
          Query.Selectors.filters plan = [] ∧
          Query.Selectors.return_object plan = None.
Proof. apply (proj2 (build_query_no_validation query_planet)). reflexivity. Defined.

(** C2 as stated fails: a result-shape name outside the table yields a plan,
    and a token on an unknown field fails with [KeyError], not with
    [UnsupportedFeature]. *)
Lemma build_query_accepts_unknown :
  Query.build_query query_planet =
    Ok (Query.Selectors.mk (Query.mkDateSearch "equals" (Query.One "2020-01-01")) 5 [] None) ∧
  dict_get Query.ReturnObjects "Planet" = None ∧
  dict_get Filter.Options "foo" = None ∧
  Query.build_query query_foo = Raise (KeyError "id").
Proof. vm_compute. repeat split. Qed.

(** ** [NEODatabase.load_data] *)

Lemma load_row_raises (self : NEODatabase.t) (row : kwargs) :
  ∃ e, NEODatabase.load_row self row = Raise e ∧
       (is_Some (dict_get row "name") →
        (∃ f, (d ← kwarg row "miss_distance_kilometers"; float_of_str d) = Ok f) →
        e = TypeError).
Proof.
  unfold NEODatabase.load_row, OrbitPath.init, kwarg. simpl.
  destruct (dict_get row "name") as [n|]; simpl.
  - destruct (dict_get row "miss_distance_kilometers") as [d|]; simpl.
    + destruct (float_of_str d) as [f|e]; simpl.
      * eexists; split; [reflexivity | done].
      * eexists; split; [reflexivity|]. intros _ [f Hf]. discriminate.
    + eexists; split; [reflexivity|]. intros _ [f Hf]. discriminate.
  - eexists; split; [reflexivity|]. intros [n Hn]. discriminate.
Qed.

(** C3, where the code departs from it: [load_data] raises on every non-empty
    sequence of records, at the first record; a record with a name and a
    distance that parses gets as far as the subscript [self.neo_name[['name']]]
    and fails there with [TypeError], so no entry is ever registered. *)
Theorem load_data_raises (self : NEODatabase.t) (filename : option string)
    (row : kwargs) (rest : list kwargs) :
  (∃ e, NEODatabase.load_data self filename (row :: rest) = Raise e) ∧
  NEODatabase.load_data (NEODatabase.init (Some "data/neo_data.csv")) None [row_ten] =
    Raise TypeError.
Proof.
  split; [|vm_compute; reflexivity].
  unfold NEODatabase.load_data.
  destruct (negb _); [eauto|]. simpl.
  destruct (load_row_raises self row) as (e & -> & _). simpl. eauto.
Qed.

(** ** The stages of [NEOSearcher.get_objects] *)

Lemma Forall_is_neo_map (ns : list NearEarthObject.t) : Forall (λ e, is_neo e = true) (map Neo ns).
Proof. apply Forall_forall. intros e He. apply list_elem_of_fmap in He as (n & -> & _). done. Qed.

Lemma Forall_is_path_map (ps : list OrbitPath.t) : Forall (λ e, is_path e = true) (map Path ps).
Proof. apply Forall_forall. intros e He. apply list_elem_of_fmap in He as (n & -> & _). done. Qed.

Lemma equal_neos (orbit_path : dict (list NearEarthObject.t)) (date : Query.values) :
  Forall (λ e, is_neo e = true) (NEOSearcher.return_date_search_equal orbit_path date).
Proof.
  induction orbit_path as [|[key value] rest IH]; simpl; [constructor|].
  destruct (NEOSearcher.key_is key date); [|done].
  apply Forall_app. split; [apply Forall_is_neo_map | done].
Qed.

Lemma between_neos (orbit_path : dict (list NearEarthObject.t)) (s e : string) :
  ∃ l, NEOSearcher.return_date_search_between orbit_path (Some s) (Some e) = Ok l ∧
       Forall (λ x, is_neo x = true) l.
Proof.
  induction orbit_path as [|[key value] rest (l & IH & Hl)]; simpl; [by eexists|].
  rewrite IH. simpl.
  destruct (str_le s key); simpl; [destruct (str_le key e)|]; simpl;
    eexists; (split; [reflexivity|]); auto.
  apply Forall_app. split; [apply Forall_is_neo_map | done].
Qed.

(** No key selected: the date selection is empty. *)
Lemma equal_none (orbit_path : dict (list NearEarthObject.t)) (date : Query.values) :
  forallb (λ kv, negb (NEOSearcher.key_is kv.1 date)) orbit_path = true →
  NEOSearcher.return_date_search_equal orbit_path date = [].
Proof.
  induction orbit_path as [|[key value] rest IH]; simpl; [done|].
  intros H. apply andb_prop in H as [Hk Hr].
  apply negb_true_iff in Hk. rewrite Hk. auto.
Qed.

Lemma between_none (orbit_path : dict (list NearEarthObject.t)) (s e : string) :
  forallb (λ kv, negb (in_range s e kv.1)) orbit_path = true →
  NEOSearcher.return_date_search_between orbit_path (Some s) (Some e) = Ok [].
Proof.
  induction orbit_path as [|[key value] rest IH]; simpl; [done|].
  intros H. apply andb_prop in H as [Hk Hr].
  apply negb_true_iff in Hk. unfold in_range in Hk. rewrite (IH Hr). simpl.
  destruct (str_le s key); simpl in *; [rewrite Hk|]; done.
Qed.

(** A valid date search selects without raising, and selects entries only. *)
Lemma date_selection_valid (self : NEOSearcher.t) (q : Query.Selectors.t) :
  valid_date_search (Query.Selectors.date_search q) = true →
  ∃ neos, NEOSearcher.date_selection self q = Ok neos ∧
          Forall (λ e, is_neo e = true) neos ∧
          (forallb (λ kv, negb (selects (Query.Selectors.date_search q) kv.1))
                   (NEOSearcher.neo_date self) = true → neos = []).
Proof.
  unfold valid_date_search, NEOSearcher.date_selection, selects.
  destruct (Query.Selectors.date_search q) as [type [date|[s|] [e|]]]; simpl;
    try discriminate; intros Ht; apply String.eqb_eq in Ht as ->; simpl.
  - eexists. split; [reflexivity|]. split; [apply equal_neos|].
    apply (equal_none _ (Query.One date)).
  - destruct (between_neos (NEOSearcher.neo_date self) s e) as (l & Hl & Hneo).
    exists l. repeat split; auto.
    intros Hnone. rewrite between_none in Hl by done. now injection Hl.
Qed.

Lemma Options_get (k : string) :
  dict_get Filter.Options k =
    if String.eqb "diameter" k then Some attr_diameter_min_km
    else if String.eqb "distance" k then Some attr_miss_distance_kilometers
    else if String.eqb "is_hazardous" k then Some attr_is_potentially_hazardous_asteroid
    else None.
Proof. reflexivity. Qed.

(** A known filter on another field than the distance reads it off an entry;
    a known distance filter reads it off an event. *)
Lemma readable_neo (f : Filter.t) (e : entity) :
  valid_filter f = true → is_distance f = false → is_neo e = true → readable f e = true.
Proof.
  unfold valid_filter, is_distance, readable. intros Hv Hd He.
  apply andb_prop in Hv as [Hf _]. apply bool_decide_eq_true in Hf as [a Ha].
  destruct e as [n| |]; try discriminate.
  rewrite Options_get in *.
  destruct (String.eqb "diameter" (Filter.field f)); [done|].
  destruct (String.eqb "distance" (Filter.field f)) eqn:Hdist.
  - rewrite String.eqb_sym in Hd. congruence.
  - destruct (String.eqb "is_hazardous" (Filter.field f)); [done | discriminate].
Qed.

Lemma readable_path (f : Filter.t) (e : entity) :
  is_distance f = true → is_path e = true → readable f e = true.
Proof.
  unfold is_distance, readable. intros Hd He. apply String.eqb_eq in Hd as ->.
  now destruct e.
Qed.

Lemma apply_Forall (P : entity → Prop) (f : Filter.t) (xs ys : list entity) :
  Filter.apply f xs = Ok ys → Forall P xs → Forall P ys.
Proof.
  intros H Hxs. apply apply_Ok_sublist in H.
  rewrite Forall_forall in *. intros y Hy. apply Hxs.
  eapply elem_of_sublist; eauto.
Qed.

Lemma forallb_readable (f : Filter.t) (p : entity → bool) (xs : list entity) :
  (∀ e, p e = true → readable f e = true) →
  Forall (λ e, p e = true) xs → forallb (readable f) xs = true.
Proof.
  intros Hp Hxs. apply forallb_forall. intros x Hx.
  rewrite Forall_forall in Hxs. apply Hp, Hxs. now apply list_elem_of_In.
Qed.

(** The loop over known filters returns, keeps entries only, and the filter it
    puts aside, if any, is a known distance filter. *)
Lemma apply_filters_valid (fs : list Filter.t) :
  forallb valid_filter fs = true →
  ∀ d0 neos,
    Forall (λ e, is_neo e = true) neos →
    (∀ d, d0 = Some d → valid_filter d = true ∧ is_distance d = true) →
    ∃ df l, NEOSearcher.apply_filters fs d0 neos = Ok (df, l) ∧
            Forall (λ e, is_neo e = true) l ∧
            (neos = [] → l = []) ∧
            (∀ d, df = Some d → valid_filter d = true ∧ is_distance d = true).
Proof.
  induction fs as [|f fs IH]; intros Hv d0 neos Hneos Hd0; simpl.
  - exists d0, neos. auto.
  - simpl in Hv. apply andb_prop in Hv as [Hf Hfs].
    fold (is_distance f). destruct (is_distance f) eqn:Hdist.
    + apply IH; auto. intros d [= <-]. auto.
    + destruct (apply_returns f neos Hf) as [l Hl].
      { apply (forallb_readable f is_neo); [|done]. intros e. now apply readable_neo. }
      rewrite Hl. simpl.
      destruct (IH Hfs d0 l) as (df & l' & H1 & H2 & H3 & H4); auto.
      { eapply apply_Forall; eauto. }
      exists df, l'. split; [done|]. split; [done|]. split; [|done].
      intros ->. apply H3. simpl in Hl. now injection Hl.
Qed.

Lemma orbit_paths_of_neos (neos : list entity) :
  Forall (λ e, is_neo e = true) neos →
  ∃ orbits, NEOSearcher.return_orbit_paths_from_neos neos = Ok orbits ∧
            Forall (λ e, is_path e = true) orbits.
Proof.
  induction 1 as [|e neos He _ (orbits & IH & Hp)]; simpl; [by eexists|].
  destruct e as [n| |]; try discriminate.
  rewrite IH. simpl. eexists. split; [reflexivity|].
  apply Forall_app. split; [apply Forall_is_path_map | done].
Qed.

Lemma neos_of_orbit_paths (self : NEOSearcher.t) (orbits : list entity) :
  Forall (λ e, is_path e = true) orbits →
  ∃ neos, NEOSearcher.return_neo_from_orbit_path self orbits = Ok neos.
Proof.
  induction 1 as [|e orbits He _ (neos & IH)]; simpl; [by eexists|].
  destruct e as [|p|]; try discriminate.
  rewrite IH. simpl. eauto.
Qed.

(** On a valid plan the stages before deduplication return; with no key
    selected both lists are empty. *)
Lemma filtered_valid (self : NEOSearcher.t) (q : Query.Selectors.t) :
  valid_plan q = true →
  ∃ both, NEOSearcher.filtered self q = Ok both ∧
          (forallb (λ kv, negb (selects (Query.Selectors.date_search q) kv.1))
                   (NEOSearcher.neo_date self) = true → both = ([], [])).
Proof.
  unfold valid_plan, NEOSearcher.filtered. intros Hv.
  apply andb_prop in Hv as [Hv _]. apply andb_prop in Hv as [Hd Hfs].
  destruct (date_selection_valid self q Hd) as (neos & -> & Hneos & Hnone). simpl.
  destruct (apply_filters_valid _ Hfs None neos Hneos) as (df & l & -> & Hl & Hnil & Hdf);
    [discriminate|]. simpl.
  destruct (orbit_paths_of_neos l Hl) as (orbits & Ho & Hp). rewrite Ho. simpl.
  destruct df as [d|].
  - destruct (Hdf d eq_refl) as [Hvd Hdd].
    destruct (apply_returns d orbits Hvd) as [fo Hfo].
    { apply (forallb_readable d is_path); [|done]. intros e. now apply readable_path. }
    rewrite Hfo. simpl.
    destruct (neos_of_orbit_paths self fo) as [fn Hfn].
    { eapply apply_Forall; eauto. }
    rewrite Hfn. simpl. eexists. split; [reflexivity|].
    intros H. rewrite (Hnil (Hnone H)) in Ho. simpl in Ho. injection Ho as <-.
    simpl in Hfo. injection Hfo as <-. simpl in Hfn. now injection Hfn as <-.
  - eexists. split; [reflexivity|].
    intros H. rewrite (Hnil (Hnone H)) in Ho |- *. simpl in Ho. now injection Ho as <-.
Qed.

(** ** Deduplication, listing order and the slice *)

Lemma dedup_NoDup (l : list entity) : NoDup (map ident_of (dedup l)).
Proof.
  induction l as [|x l IH]; simpl; [constructor|].
  case_bool_decide as Hx; [done|].
  simpl. constructor; [|done].
  intros Hin. apply Hx.
  apply list_elem_of_fmap in Hin as (y & Hy & Hin). rewrite Hy.
  apply list_elem_of_fmap. exists y. split; [done|].
  clear -Hin. induction l as [|z l IH]; simpl in Hin; [inversion Hin|].
  case_bool_decide; [right; auto|].
  apply elem_of_cons in Hin as [->|Hin]; [left | right; auto].
Qed.

Lemma dedup_order : set_order_spec dedup.
Proof. intros l. reflexivity. Qed.

Lemma order_nil (order : list entity → list entity) :
  set_order_spec order → order [] = [].
Proof. intros H. apply Permutation_nil_r, (H []). Qed.

Lemma order_length (order : list entity → list entity) (l : list entity) :
  set_order_spec order → length (order l) = length (dedup l).
Proof. intros H. apply Permutation_length, H. Qed.

Lemma slice_to_take {A : Type} (l : list A) (n : Z) :
  0 ≤ n → slice_to l n = take (Z.to_nat n) l.
Proof. unfold slice_to. intros H. apply Z.leb_le in H. now rewrite H. Qed.

Lemma get_objects_shaped (order : list entity → list entity) (self : NEOSearcher.t)
    (q : Query.Selectors.t) (both : list entity * list entity) :
  NEOSearcher.filtered self q = Ok both →
  NEOSearcher.get_objects order self q =
    Ok (slice_to (order (shaped q both)) (Query.Selectors.number q)).
Proof.
  unfold NEOSearcher.get_objects, shaped. intros ->. simpl.
  destruct (Query.Selectors.return_object q) as [c|]; [destruct c|]; reflexivity.
Qed.

(** C9: on a valid plan [get_objects] raises nothing and returns a list,
    whatever the index holds; when the date, or the range of dates, selects no
    key of the date index, the list is empty. *)
Theorem get_objects_returns (order : list entity → list entity) (self : NEOSearcher.t)
    (q : Query.Selectors.t) :
  valid_plan q = true →
  (∃ res, NEOSearcher.get_objects order self q = Ok res) ∧
  (set_order_spec order →
   forallb (λ kv, negb (selects (Query.Selectors.date_search q) kv.1))
           (NEOSearcher.neo_date self) = true →
   NEOSearcher.get_objects order self q = Ok []).
Proof.
  intros Hv. destruct (filtered_valid self q Hv) as (both & Hboth & Hnone).
  rewrite (get_objects_shaped order self q both Hboth). split; [eauto|].
  intros Ho Hsel. rewrite (Hnone Hsel).
  assert (shaped q ([], []) = []) as ->.
  { unfold shaped. destruct (Query.Selectors.return_object q) as [c|]; [destruct c|]; reflexivity. }
  rewrite (order_nil order Ho). unfold slice_to.
  destruct (0 <=? _); now rewrite take_nil.
Qed.

Lemma get_objects_returns_witness :
  (∃ res, NEOSearcher.get_objects dedup (NEOSearcher.init index_A0) plan_range = Ok res) ∧
  NEOSearcher.get_objects dedup (NEOSearcher.init index_A0) plan_1999 = Ok [].
Proof.
  split.
  - apply (get_objects_returns dedup (NEOSearcher.init index_A0) plan_range). reflexivity.
  - apply (get_objects_returns dedup (NEOSearcher.init index_A0) plan_1999).
    + reflexivity.
    + apply dedup_order.
    + reflexivity.
Defined.

(** C4: on a valid plan the result is the first [number] members of the
    deduplicated list of the selected shape: it is no longer than the cap, its
    length is the minimum of the cap and the number of available members, it
    holds available members only, each once, and all of them when the cap is
    at least their number. *)
Theorem get_objects_cap (order : list entity → list entity) (self : NEOSearcher.t)
    (q : Query.Selectors.t) :
  set_order_spec order → valid_plan q = true →
  ∃ both res,
    NEOSearcher.filtered self q = Ok both ∧
    NEOSearcher.get_objects order self q = Ok res ∧
    Z.of_nat (length res) ≤ Query.Selectors.number q ∧
    length res = Nat.min (Z.to_nat (Query.Selectors.number q))
                         (length (dedup (shaped q both))) ∧
    NoDup (map ident_of (dedup (shaped q both))) ∧
    res ⊆+ dedup (shaped q both) ∧
    (Z.of_nat (length (dedup (shaped q both))) ≤ Query.Selectors.number q →
     res ≡ₚ dedup (shaped q both)).
Proof.
  intros Ho Hv. destruct (filtered_valid self q Hv) as (both & Hboth & _).
  assert (Hn : 0 < Query.Selectors.number q).
  { unfold valid_plan in Hv. apply andb_prop in Hv as [_ Hn]. now apply Z.ltb_lt. }
  exists both, (take (Z.to_nat (Query.Selectors.number q)) (order (shaped q both))).
  split; [done|]. split.
  { rewrite (get_objects_shaped order self q both Hboth), slice_to_take by lia. done. }
  rewrite length_take, (order_length order _ Ho).
  split; [lia|]. split; [done|]. split; [apply dedup_NoDup|]. split.
  - rewrite <- (Ho (shaped q both)). apply submseteq_take.
  - intros Hle. rewrite take_ge; [apply Ho|].
    rewrite (order_length order _ Ho). lia.
Qed.

Lemma get_objects_cap_witness :
  ∃ both res,
    NEOSearcher.filtered (NEOSearcher.init index_A0) plan_range = Ok both ∧
    NEOSearcher.get_objects dedup (NEOSearcher.init index_A0) plan_range = Ok res ∧
    Z.of_nat (length res) ≤ 5 ∧
    length res = Nat.min 5 (length (dedup (shaped plan_range both))) ∧
    NoDup (map ident_of (dedup (shaped plan_range both))) ∧
    res ⊆+ dedup (shaped plan_range both) ∧
    (Z.of_nat (length (dedup (shaped plan_range both))) ≤ 5 →
     res ≡ₚ dedup (shaped plan_range both)).
Proof.
  apply (get_objects_cap dedup (NEOSearcher.init index_A0) plan_range).
  - apply dedup_order.
  - reflexivity.
Defined.

(** ** The loop over the filters *)

Lemma bind_assoc {A B C : Type} (m : result A) (k : A → result B) (h : B → result C) :
  ((m ≫= k) ≫= h) = (m ≫= λ a, k a ≫= h).
Proof. now destruct m. Qed.

(** The loop narrows by the filters on other fields, in their order, and puts
    aside the last distance filter (or keeps the one it started with). *)
Lemma apply_filters_spec (fs : list Filter.t) :
  ∀ d0 neos,
    NEOSearcher.apply_filters fs d0 neos =
      (l ← apply_each (others fs) neos;
       Ok (from_option Some d0 (last (distances fs)), l)).
Proof.
  induction fs as [|f fs IH]; intros d0 neos; [done|].
  simpl. fold (is_distance f). unfold others, distances in *. simpl.
  destruct (is_distance f); simpl.
  - rewrite IH, last_cons. now destruct (last _).
  - destruct (Filter.apply f neos) as [l|e]; simpl; [apply IH | done].
Qed.

Lemma filtered_filters_ext (self : NEOSearcher.t) (q : Query.Selectors.t)
    (fs fs' : list Filter.t) :
  (∀ neos, NEOSearcher.apply_filters fs None neos = NEOSearcher.apply_filters fs' None neos) →
  NEOSearcher.filtered self (with_filters q fs) = NEOSearcher.filtered self (with_filters q fs').
Proof.
  intros H. unfold NEOSearcher.filtered. simpl.
  change (NEOSearcher.date_selection self (with_filters q fs))
    with (NEOSearcher.date_selection self (with_filters q fs')).
  destruct (NEOSearcher.date_selection _ _) as [neos|e]; simpl; [|done].
  now rewrite H.
Qed.

Lemma distances_nonempty (fs : list Filter.t) :
  existsb is_distance fs = true → is_Some (last (distances fs)).
Proof.
  intros H. apply last_is_Some. apply existsb_exists in H as (f & Hin & Hf).
  intros Hnil. assert (Hf' : In f (distances fs)) by (apply filter_In; auto).
  rewrite Hnil in Hf'. inversion Hf'.
Qed.

(** With a distance filter at hand, [get_objects] narrows the entries by the
    other filters, expands them to their events, applies the last distance
    filter to the events, maps the events left back to entries, and slices
    the deduplicated list of the selected shape. *)
Lemma get_objects_with_distance (order : list entity → list entity)
    (self : NEOSearcher.t) (q : Query.Selectors.t) (fs : list Filter.t) (d' : Filter.t) :
  last (distances fs) = Some d' →
  NEOSearcher.get_objects order self (with_filters q fs) =
    (neos ← NEOSearcher.date_selection self q;
     entries ← apply_each (others fs) neos;
     orbits ← NEOSearcher.return_orbit_paths_from_neos entries;
     filtered_orbits ← Filter.apply d' orbits;
     filtered_neos ← NEOSearcher.return_neo_from_orbit_path self filtered_orbits;
     Ok (slice_to (order (shaped q (filtered_neos, filtered_orbits)))
                  (Query.Selectors.number q))).
Proof.
  intros Hlast. unfold NEOSearcher.get_objects, NEOSearcher.filtered.
  change (NEOSearcher.date_selection self (with_filters q fs))
    with (NEOSearcher.date_selection self q).
  destruct (NEOSearcher.date_selection self q) as [neos|e]; [|done].
  cbn [mbind result_bind with_filters Query.Selectors.filters].
  rewrite apply_filters_spec, Hlast.
  destruct (apply_each (others fs) neos) as [entries|e]; [|done].
  cbn [mbind result_bind fst snd from_option].
  destruct (NEOSearcher.return_orbit_paths_from_neos entries) as [orbits|e]; [|done].
  cbn [mbind result_bind].
  destruct (Filter.apply d' orbits) as [fo|e]; [|done].
  cbn [mbind result_bind].
  destruct (NEOSearcher.return_neo_from_orbit_path self fo) as [fn|e]; [|done].
  cbn [mbind result_bind fst snd]. unfold shaped, with_filters.
  cbn [Query.Selectors.return_object Query.Selectors.number fst snd].
  destruct (Query.Selectors.return_object q) as [c|]; [destruct c|]; reflexivity.
Qed.

(** C10: when a distance filter is followed, anywhere later in the list, by
    another distance filter, [get_objects] applies to the expanded events the
    last distance filter of the list and no other: the result is that of the
    pipeline in which the entries are narrowed by the filters on other
    fields, expanded, the events filtered by the last distance filter, and
    the events left mapped back to entries.  The earlier distance filter is
    dropped in the loop and has no effect: the plan with it and the plan
    without it give the same outcome. *)
Theorem last_distance_filter_only (order : list entity → list entity)
    (self : NEOSearcher.t) (q : Query.Selectors.t) (fs1 fs2 : list Filter.t) (d : Filter.t) :
  is_distance d = true → existsb is_distance fs2 = true →
  NEOSearcher.get_objects order self (with_filters q (fs1 ++ d :: fs2)) =
    NEOSearcher.get_objects order self (with_filters q (fs1 ++ fs2)) ∧
  (∀ neos, NEOSearcher.apply_filters (fs1 ++ d :: fs2) None neos =
             (l ← apply_each (others (fs1 ++ fs2)) neos;
              Ok (last (distances fs2), l))) ∧
  ∃ d', last (distances fs2) = Some d' ∧ d' ∈ fs2 ∧ is_distance d' = true ∧
    NEOSearcher.get_objects order self (with_filters q (fs1 ++ d :: fs2)) =
      (neos ← NEOSearcher.date_selection self q;
       entries ← apply_each (others (fs1 ++ fs2)) neos;
       orbits ← NEOSearcher.return_orbit_paths_from_neos entries;
       filtered_orbits ← Filter.apply d' orbits;
       filtered_neos ← NEOSearcher.return_neo_from_orbit_path self filtered_orbits;
       Ok (slice_to (order (shaped q (filtered_neos, filtered_orbits)))
                    (Query.Selectors.number q))).
Proof.
  intros Hd Hfs2.
  destruct (distances_nonempty fs2 Hfs2) as [d' Hd'].
  assert (Hothers : others (fs1 ++ d :: fs2) = others (fs1 ++ fs2)).
  { unfold others. rewrite !List.filter_app. simpl. now rewrite Hd. }
  assert (Hlast : last (distances (fs1 ++ d :: fs2)) = Some d').
  { unfold distances in *. rewrite List.filter_app. simpl. rewrite Hd.
    now rewrite last_app, last_cons, Hd'. }
  assert (Hloop : ∀ neos, NEOSearcher.apply_filters (fs1 ++ d :: fs2) None neos =
            (l ← apply_each (others (fs1 ++ fs2)) neos; Ok (last (distances fs2), l))).
  { intros neos. now rewrite apply_filters_spec, Hothers, Hlast, Hd'. }
  split; [|split; [exact Hloop|]].
  - unfold NEOSearcher.get_objects.
    rewrite (filtered_filters_ext self q (fs1 ++ d :: fs2) (fs1 ++ fs2)); [done|].
    intros neos. rewrite Hloop, apply_filters_spec.
    unfold distances in *. rewrite List.filter_app, last_app. now rewrite Hd'.
  - exists d'. split; [exact Hd'|].
    assert (Hin : In d' (distances fs2)).
    { apply list_elem_of_In, last_Some_elem_of, Hd'. }
    apply filter_In in Hin as [Hin Hdist].
    split; [now apply list_elem_of_In|]. split; [exact Hdist|].
    rewrite (get_objects_with_distance order self q _ d' Hlast). now rewrite Hothers.
Qed.

Lemma last_distance_filter_only_witness :
  (NEOSearcher.get_objects dedup (NEOSearcher.init index_A0)
       (with_filters plan_range_paths ([] ++ distance_gt_9 :: [distance_gt_50])) =
     NEOSearcher.get_objects dedup (NEOSearcher.init index_A0)
       (with_filters plan_range_paths ([] ++ [distance_gt_50])) ∧
   (∀ neos, NEOSearcher.apply_filters ([] ++ distance_gt_9 :: [distance_gt_50]) None neos =
              (l ← apply_each (others ([] ++ [distance_gt_50])) neos;
               Ok (last (distances [distance_gt_50]), l))) ∧
   ∃ d', last (distances [distance_gt_50]) = Some d' ∧ d' ∈ [distance_gt_50] ∧
     is_distance d' = true ∧
     NEOSearcher.get_objects dedup (NEOSearcher.init index_A0)
         (with_filters plan_range_paths ([] ++ distance_gt_9 :: [distance_gt_50])) =
       (neos ← NEOSearcher.date_selection (NEOSearcher.init index_A0) plan_range_paths;
        entries ← apply_each (others ([] ++ [distance_gt_50])) neos;
        orbits ← NEOSearcher.return_orbit_paths_from_neos entries;
        filtered_orbits ← Filter.apply d' orbits;
        filtered_neos ← NEOSearcher.return_neo_from_orbit_path
                          (NEOSearcher.init index_A0) filtered_orbits;
        Ok (slice_to (dedup (shaped plan_range_paths (filtered_neos, filtered_orbits)))
                     (Query.Selectors.number plan_range_paths)))) ∧
  NEOSearcher.get_objects dedup (NEOSearcher.init index_A0)
      (with_filters plan_range_paths [distance_gt_9; distance_gt_50]) =
    Ok [Path event_0101] ∧
  NEOSearcher.get_objects dedup (NEOSearcher.init index_A0)
      (with_filters plan_range_paths [distance_gt_9]) = Ok [] ∧
  NEOSearcher.get_objects dedup (NEOSearcher.init index_A0)
      (with_filters plan_range_paths []) = Ok [Path event_0101; Path event_0102].
Proof.
  split; [|vm_compute; repeat split].
  apply (last_distance_filter_only dedup (NEOSearcher.init index_A0) plan_range_paths
           [] [distance_gt_50] distance_gt_9); reflexivity.
Defined.

(** Without a distance filter the loop is the plain succession of the filters
    and nothing is put aside. *)
Lemma apply_filters_no_distance (fs : list Filter.t) (neos : list entity) :
  forallb (λ f, negb (is_distance f)) fs = true →
  NEOSearcher.apply_filters fs None neos = (l ← apply_each fs neos; Ok (None, l)).
Proof.
  intros H. rewrite apply_filters_spec. unfold others, distances.
  assert (List.filter (λ f, negb (is_distance f)) fs = fs) as ->.
  { induction fs as [|f fs IH]; [done|]. simpl in *.
    apply andb_prop in H as [-> H]. now rewrite IH. }
  assert (List.filter is_distance fs = []) as ->; [|done].
  induction fs as [|f fs IH]; [done|]. simpl in *.
  apply andb_prop in H as [Hf H]. apply negb_true_iff in Hf. rewrite Hf. auto.
Qed.

(** C6: on the index of entry A with its two events, the query for the exact
    date 2020-01-01 without filters, capped at 5, entry-shaped, returns the
    list [[A]].  In general, a plan without distance filter and of entry shape
    returns the slice of the deduplicated entries that the date selection and
    the filters leave; the events they expand to are computed and dropped. *)
Theorem scenario_entry_result (order : list entity → list entity)
    (i : string) (d : float) (h : string) :
  set_order_spec order →
  Query.build_query query_0101 = Ok plan_0101 ∧
  NEOSearcher.get_objects order (NEOSearcher.init (index_A i d h)) plan_0101 =
    Ok [Neo (entry_A i d h)] ∧
  ∀ self q,
    forallb (λ f, negb (is_distance f)) (Query.Selectors.filters q) = true →
    Query.Selectors.return_object q = Some NearEarthObject_class →
    NEOSearcher.get_objects order self q =
      (neos ← NEOSearcher.date_selection self q;
       entries ← apply_each (Query.Selectors.filters q) neos;
       _ ← NEOSearcher.return_orbit_paths_from_neos entries;
       Ok (slice_to (order entries) (Query.Selectors.number q))).
Proof.
  intros Ho. split; [reflexivity|]. split.
  - rewrite (get_objects_shaped order _ _
               ([Neo (entry_A i d h)], [Path event_0101; Path event_0102]));
      [|reflexivity].
    change (shaped plan_0101 _) with [Neo (entry_A i d h)].
    assert (order [Neo (entry_A i d h)] = [Neo (entry_A i d h)]) as ->; [|done].
    apply Permutation_singleton_r. apply (Ho [Neo (entry_A i d h)]).
  - intros self q Hfs Hro. unfold NEOSearcher.get_objects, NEOSearcher.filtered.
    rewrite Hro.
    destruct (NEOSearcher.date_selection self q) as [neos|e]; simpl; [|done].
    rewrite apply_filters_no_distance by done.
    destruct (apply_each _ neos) as [entries|e]; simpl; [|done].
    now destruct (NEOSearcher.return_orbit_paths_from_neos entries).
Qed.

Lemma scenario_entry_result_witness :
  NEOSearcher.get_objects dedup (NEOSearcher.init index_A0) plan_0101 =
    Ok [Neo (entry_A "2000433" (float_of_decimal false 5 (-1)) "False")].
Proof.
  exact (proj1 (proj2 (scenario_entry_result dedup "2000433" (float_of_decimal false 5 (-1))
                                             "False" dedup_order))).
Defined.

(** * Further properties of the code *)

(** ** The constructors of models.py *)

Lemma float_of_str_raises (s : string) (e : exn) :
  float_of_str s = Raise e → e = ValueError.
Proof.
  unfold float_of_str. destruct (ascii_form s) as [text|]; [|congruence].
  destruct (drop_underscores _ _) as [l|]; [|congruence].
  destruct (take_sign l) as [neg body].
  destruct (_ || _); [discriminate|]. destruct (String.eqb _ "nan"); [discriminate|].
  destruct (parse_number neg body); congruence.
Qed.

Lemma kwarg_outcome (kw : kwargs) (k : string) :
  kwarg kw k = match dict_get kw k with
               | Some v => Ok v
               | None => Raise (KeyError k)
               end.
Proof. reflexivity. Qed.

(** X1: [OrbitPath(...)] needs the keys [name] and [miss_distance_kilometers]:
    a missing name raises [KeyError('name')] whatever else the row holds, a
    missing distance [KeyError('miss_distance_kilometers')], a distance that
    is not a number [ValueError]; the date is optional and its absence is no
    error.  It succeeds exactly when both keys are there and the distance
    parses, and the object then carries the row's name, the parsed distance
    and the row's date (or [None]). *)
Theorem OrbitPath_init_outcome (a : nat) (kw : kwargs) :
  (dict_get kw "name" = None → OrbitPath.init a kw = Raise (KeyError "name")) ∧
  (is_Some (dict_get kw "name") → dict_get kw "miss_distance_kilometers" = None →
   OrbitPath.init a kw = Raise (KeyError "miss_distance_kilometers")) ∧
  (∀ d e, is_Some (dict_get kw "name") →
     dict_get kw "miss_distance_kilometers" = Some d → float_of_str d = Raise e →
     OrbitPath.init a kw = Raise ValueError) ∧
  (∀ p, OrbitPath.init a kw = Ok p ↔
        ∃ n d f, dict_get kw "name" = Some n ∧
                 dict_get kw "miss_distance_kilometers" = Some d ∧
                 float_of_str d = Ok f ∧
                 p = OrbitPath.mk a n f (dict_get kw "close_approach_date")).
Proof.
  unfold OrbitPath.init. rewrite !kwarg_outcome.
  split; [|split; [|split]].
  - now intros ->.
  - intros [n ->] ->. reflexivity.
  - intros d e [n ->] -> He. simpl. rewrite He.
    now rewrite (float_of_str_raises d e He).
  - intros p. split.
    + destruct (dict_get kw "name") as [n|]; simpl; [|discriminate].
      destruct (dict_get kw "miss_distance_kilometers") as [d|]; simpl; [|discriminate].
      destruct (float_of_str d) as [f|e] eqn:Hf; simpl; [|discriminate].
      intros [= <-]. eauto 10.
    + intros (n & d & f & -> & -> & Hf & ->). simpl. now rewrite Hf.
Qed.

Lemma OrbitPath_init_outcome_witness :
  OrbitPath.init 7 row_no_distance = Raise (KeyError "miss_distance_kilometers") ∧
  OrbitPath.init 7 row_bad_distance = Raise ValueError ∧
  OrbitPath.init 7 [("miss_distance_kilometers", "500")] = Raise (KeyError "name").
Proof.
  split; [|split].
  - apply (proj1 (proj2 (OrbitPath_init_outcome 7 row_no_distance))); [by eexists | done].
  - apply (proj1 (proj2 (proj2 (OrbitPath_init_outcome 7 row_bad_distance)))
             "far" ValueError); [by eexists | done | vm_compute; reflexivity].
  - apply (proj1 (OrbitPath_init_outcome 7 [("miss_distance_kilometers", "500")])). done.
Defined.

(** X2: [NearEarthObject(...)] reads [id], [name],
    [estimated_diameter_min_kilometers] and [is_potentially_hazardous_asteroid]
    in this order: the first key missing is the one the [KeyError] names (so
    the constructor called without arguments raises [KeyError('id')]), and a
    size that is not a number raises [ValueError].  It succeeds exactly when
    the four keys are there and the size parses; the new entry has no event. *)
Theorem NearEarthObject_init_outcome (a : nat) (kw : kwargs) :
  (dict_get kw "id" = None → NearEarthObject.init a kw = Raise (KeyError "id")) ∧
  (is_Some (dict_get kw "id") → dict_get kw "name" = None →
   NearEarthObject.init a kw = Raise (KeyError "name")) ∧
  (∀ n, NearEarthObject.init a kw = Ok n ↔
        ∃ i nm d f h,
          dict_get kw "id" = Some i ∧ dict_get kw "name" = Some nm ∧
          dict_get kw "estimated_diameter_min_kilometers" = Some d ∧
          float_of_str d = Ok f ∧
          dict_get kw "is_potentially_hazardous_asteroid" = Some h ∧
          n = NearEarthObject.mk a [] i nm f h) ∧
  (∀ i nm d, dict_get kw "id" = Some i → dict_get kw "name" = Some nm →
     dict_get kw "estimated_diameter_min_kilometers" = Some d →
     (∀ f, float_of_str d ≠ Ok f) →
     NearEarthObject.init a kw = Raise ValueError).
Proof.
  unfold NearEarthObject.init. rewrite !kwarg_outcome.
  split; [|split; [|split]].
  - now intros ->.
  - intros [i ->] ->. reflexivity.
  - intros n. split.
    + destruct (dict_get kw "id") as [i|]; simpl; [|discriminate].
      destruct (dict_get kw "name") as [nm|]; simpl; [|discriminate].
      destruct (dict_get kw "estimated_diameter_min_kilometers") as [d|]; simpl;
        [|discriminate].
      destruct (float_of_str d) as [f|e] eqn:Hf; simpl; [|discriminate].
      destruct (dict_get kw "is_potentially_hazardous_asteroid") as [h|]; simpl;
        [|discriminate].
      intros [= <-]. eauto 12.
    + intros (i & nm & d & f & h & -> & -> & -> & Hf & -> & ->). simpl. now rewrite Hf.
  - intros i nm d -> -> -> Hf. simpl.
    destruct (float_of_str d) as [f|e] eqn:He; [now destruct (Hf f)|].
    now rewrite (float_of_str_raises d e He).
Qed.

Lemma NearEarthObject_init_outcome_witness :
  NearEarthObject.init 0 [] = Raise (KeyError "id") ∧
  NearEarthObject.init 0 row_ten = Ok entry_ten ∧
  NearEarthObject.init 0 [("id", "1"); ("name", "A");
                          ("estimated_diameter_min_kilometers", "big")] = Raise ValueError.
Proof.
  split; [|split].
  - apply (proj1 (NearEarthObject_init_outcome 0 [])). done.
  - apply (proj1 (proj2 (proj2 (NearEarthObject_init_outcome 0 row_ten)))).
    exists "3542519", "(2010 PK9)", "10.0", (float_of_decimal false 10 0), "False".
    repeat split.
  - apply (proj2 (proj2 (proj2 (NearEarthObject_init_outcome 0 _))) "1" "A" "big");
      try reflexivity.
    intros f. vm_compute. discriminate.
Defined.

(** X3: events appended one after the other to an entry end up after the
    events it had, in the order of the appends, and nothing else of the entry
    changes. *)
Theorem update_orbits_appends (n : NearEarthObject.t) (ps : list OrbitPath.t) :
  NearEarthObject.orbits (foldl NearEarthObject.update_orbits n ps) =
    NearEarthObject.orbits n ++ ps ∧
  NearEarthObject.oid (foldl NearEarthObject.update_orbits n ps) = NearEarthObject.oid n ∧
  NearEarthObject.id (foldl NearEarthObject.update_orbits n ps) = NearEarthObject.id n ∧
  NearEarthObject.name (foldl NearEarthObject.update_orbits n ps) = NearEarthObject.name n ∧
  NearEarthObject.diameter_min_km (foldl NearEarthObject.update_orbits n ps) =
    NearEarthObject.diameter_min_km n ∧
  NearEarthObject.is_potentially_hazardous_asteroid (foldl NearEarthObject.update_orbits n ps) =
    NearEarthObject.is_potentially_hazardous_asteroid n.
Proof.
  revert n. induction ps as [|p ps IH]; intros n; simpl.
  - now rewrite app_nil_r.
  - destruct (IH (NearEarthObject.update_orbits n p)) as (H1 & H2 & H3 & H4 & H5 & H6).
    rewrite H1, H2, H3, H4, H5, H6. simpl. now rewrite <- app_assoc.
Qed.

(** ** [NEODatabase.load_data] at its edges *)

(** X4: without a file name, neither passed nor stored in the database,
    [load_data] raises [Exception] before it reads anything; with one, an
    input without records leaves the database as it is. *)
Theorem load_data_edges (self : NEODatabase.t) (filename : option string) :
  (truthy filename || truthy (NEODatabase.filename self) = false →
   ∀ data, NEODatabase.load_data self filename data =
             Raise (Exception "Cannot load data, no filename provided")) ∧
  (truthy filename || truthy (NEODatabase.filename self) = true →
   NEODatabase.load_data self filename [] = Ok self).
Proof.
  unfold NEODatabase.load_data. split; intros ->; reflexivity.
Qed.

Lemma load_data_edges_witness :
  NEODatabase.load_data (NEODatabase.init None) (Some "") [row_ten] =
    Raise (Exception "Cannot load data, no filename provided") ∧
  NEODatabase.load_data (NEODatabase.init None) (Some "data/neo_data.csv") [] =
    Ok (NEODatabase.init None).
Proof.
  split.
  - apply (proj1 (load_data_edges (NEODatabase.init None) (Some ""))). reflexivity.
  - apply (proj2 (load_data_edges (NEODatabase.init None) (Some "data/neo_data.csv"))).
    reflexivity.
Defined.

(** ** [Query.build_query] and the filter tokens *)

(** X5: for a query without filter tokens [build_query] always returns a plan.
    An exact date that is given and not empty makes an [equals] search and the
    range is ignored; otherwise the search is [between] the start and end
    dates as given, absent ones included.  The cap is copied as it is, zero
    or negative included. *)
Theorem build_query_dates (q : Query.t) :
  Query.filter q = [] →
  ∃ plan,
    Query.build_query q = Ok plan ∧
    Query.Selectors.number plan = Query.number q ∧
    (∀ d, Query.date q = Some d → d ≠ "" →
       Query.Selectors.date_search plan = Query.mkDateSearch "equals" (Query.One d)) ∧
    (Query.date q = None ∨ Query.date q = Some "" →
       Query.Selectors.date_search plan =
         Query.mkDateSearch "between" (Query.Two (Query.start_date q) (Query.end_date q))).
Proof.
  intros Hf. rewrite build_query_outcome, Hf. eexists. split; [reflexivity|].
  split; [reflexivity|]. unfold date_search_of. simpl. split.
  - intros d -> Hd. simpl. apply String.eqb_neq in Hd. now rewrite Hd.
  - now intros [-> | ->].
Qed.

Lemma build_query_dates_witness :
  ∃ plan,
    Query.build_query (Query.mk (Some "2020-01-01") (Some "2020-01-09") (Some "2020-01-02")
                                (-3) [] "NEO") = Ok plan ∧
    Query.Selectors.number plan = -3 ∧
    Query.Selectors.date_search plan = Query.mkDateSearch "equals" (Query.One "2020-01-01").
Proof.
  destruct (build_query_dates
              (Query.mk (Some "2020-01-01") (Some "2020-01-09") (Some "2020-01-02")
                        (-3) [] "NEO") eq_refl) as (plan & H1 & H2 & H3 & _).
  exists plan. split; [exact H1|]. split; [exact H2|].
  apply (H3 "2020-01-01"); [reflexivity | discriminate].
Defined.

(** X6: [create_filter_options] returns the empty mapping for no token and
    raises [KeyError('id')] as soon as there is one, whatever its field; so
    does [build_query] for every query that carries a filter token. *)
Theorem filter_tokens_never_build (tok : string) (rest : list string)
    (date end_date start_date : option string) (number : Z) (return_object : string) :
  Filter.create_filter_options [] = Ok [] ∧
  Filter.create_filter_options (tok :: rest) = Raise (KeyError "id") ∧
  Query.build_query (Query.mk date end_date start_date number (tok :: rest) return_object) =
    Raise (KeyError "id").
Proof.
  split; [reflexivity|]. split; [apply create_filter_options_raises|].
  now rewrite build_query_outcome.
Qed.

Lemma split_colon_free (s : string) :
  colon_free s = true → split ":" s = [s].
Proof.
  unfold colon_free. induction s as [|c s IH]; simpl; [done|].
  intros H. apply andb_prop in H as [Hc Hs]. apply negb_true_iff in Hc.
  rewrite Hc. now rewrite (IH Hs).
Qed.

Lemma split_app_colon (a rest : string) :
  colon_free a = true → split ":" (a +++ String ":" rest) = a :: split ":" rest.
Proof.
  unfold colon_free. induction a as [|c a IH]; simpl; [done|].
  intros H. apply andb_prop in H as [Hc Hs]. apply negb_true_iff in Hc.
  rewrite Hc. now rewrite (IH Hs).
Qed.

(** X7: the loop that turns tokens into filters takes the first part of a
    token as the field, the second as the operation and the last as the
    value, as a str: [field:op:value] gives the three parts, a token with
    more parts loses the ones in between, a token [field:op] gets its
    operation as value, and a token without colon raises [IndexError]. *)
Theorem build_filters_tokens (key f op v x : string) :
  colon_free f = true → colon_free op = true → colon_free v = true →
  colon_free x = true →
  Query.build_filters key [f +++ ":" +++ op +++ ":" +++ v] =
    Ok [Filter.mk f key op (VStr v)] ∧
  Query.build_filters key [f +++ ":" +++ op +++ ":" +++ x +++ ":" +++ v] =
    Ok [Filter.mk f key op (VStr v)] ∧
  Query.build_filters key [f +++ ":" +++ op] = Ok [Filter.mk f key op (VStr op)] ∧
  Query.build_filters key [f] = Raise IndexError.
Proof.
  intros Hf Hop Hv Hx. simpl.
  rewrite !(split_app_colon f), !(split_app_colon op), (split_app_colon x) by done.
  rewrite (split_colon_free v), (split_colon_free op), (split_colon_free f) by done.
  repeat split.
Qed.

Lemma build_filters_tokens_witness :
  Query.build_filters "OrbitPath" ["distance" +++ ":" +++ ">" +++ ":" +++ "100"] =
    Ok [distance_gt_100] ∧
  Query.build_filters "OrbitPath"
      ["distance" +++ ":" +++ ">" +++ ":" +++ "=" +++ ":" +++ "100"] = Ok [distance_gt_100] ∧
  Query.build_filters "OrbitPath" ["distance" +++ ":" +++ ">"] =
    Ok [Filter.mk "distance" "OrbitPath" ">" (VStr ">")] ∧
  Query.build_filters "OrbitPath" ["distance"] = Raise IndexError.
Proof.
  apply (build_filters_tokens "OrbitPath" "distance" ">" "100" "="); reflexivity.
Defined.

(** ** More on [Filter.apply] *)

Lemma apply_app (f : Filter.t) (xs ys : list entity) :
  Filter.apply f (xs ++ ys) =
    (xs' ← Filter.apply f xs; ys' ← Filter.apply f ys; Ok (xs' ++ ys')).
Proof.
  induction xs as [|x xs IH]; simpl.
  - now destruct (Filter.apply f ys).
  - destruct (Filter.test f x) as [b|e]; simpl; [|done].
    rewrite IH. destruct (Filter.apply f xs) as [xs'|e]; simpl; [|done].
    destruct (Filter.apply f ys) as [ys'|e]; simpl; [|done].
    now destruct b.
Qed.

Lemma apply_Ok_filter (f : Filter.t) (xs : list entity) :
  ∀ ys, Filter.apply f xs = Ok ys →
        ys = List.filter (passes f) xs ∧ forallb (testable f) xs = true.
Proof.
  induction xs as [|x xs IH]; intros ys H.
  - injection H as <-. done.
  - apply apply_Ok_cons in H as (b & zs & Hb & Hzs & ->).
    destruct (IH zs Hzs) as [-> Hall]. simpl.
    assert (passes f x = b) as -> by (unfold passes; rewrite Hb; now destruct b).
    assert (testable f x = true) as -> by (unfold testable; now rewrite Hb).
    now rewrite Hall.
Qed.

Lemma apply_testable (f : Filter.t) (xs : list entity) :
  forallb (testable f) xs = true → Filter.apply f xs = Ok (List.filter (passes f) xs).
Proof.
  induction xs as [|x xs IH]; simpl; [done|].
  intros H. apply andb_prop in H as [Hx Hxs]. rewrite (IH Hxs).
  unfold testable in Hx. unfold passes.
  destruct (Filter.test f x) as [b|e]; [|discriminate]. simpl. now destruct b.
Qed.

Lemma filter_filter_comm {A : Type} (p q : A → bool) (l : list A) :
  List.filter p (List.filter q l) = List.filter q (List.filter p l).
Proof.
  induction l as [|x l IH]; [done|]. simpl.
  destruct (q x) eqn:Hq, (p x) eqn:Hp; simpl; rewrite ?Hq, ?Hp, IH; done.
Qed.

Lemma forallb_filter {A : Type} (p q : A → bool) (l : list A) :
  forallb p l = true → forallb p (List.filter q l) = true.
Proof.
  induction l as [|x l IH]; [done|]. simpl.
  intros H. apply andb_prop in H as [Hx Hl].
  destruct (q x); simpl; rewrite ?Hx; auto.
Qed.

(** X8: how [Filter.apply] fails.  On the empty list it returns the empty
    list whatever the filter.  On a list that starts with an entity, a field
    outside [Filter.Options] raises [TypeError], a field the entity does not
    have (a size asked of an event, a distance asked of an entry, anything
    asked of [None]) raises [AttributeError], and an operation outside
    [Filter.Operators] raises [TypeError] once the field has been read. *)
Theorem apply_failures (f : Filter.t) (x : entity) (xs : list entity) :
  Filter.apply f [] = Ok [] ∧
  (dict_get Filter.Options (Filter.field f) = None →
   Filter.apply f (x :: xs) = Raise TypeError) ∧
  (is_Some (dict_get Filter.Options (Filter.field f)) → readable f x = false →
   Filter.apply f (x :: xs) = Raise AttributeError) ∧
  (readable f x = true → dict_get Filter.Operators (Filter.operation f) = None →
   Filter.apply f (x :: xs) = Raise TypeError).
Proof.
  split; [reflexivity|].
  assert (Hcons : ∀ e, Filter.test f x = Raise e → Filter.apply f (x :: xs) = Raise e).
  { intros e He. cbn [Filter.apply]. now rewrite He. }
  unfold readable. split; [|split].
  - intros Hn. apply Hcons. unfold Filter.test. now rewrite Hn.
  - intros [a Ha] Hr. apply Hcons. unfold Filter.test. rewrite Ha in *.
    destruct x as [n|p|], a; try discriminate; reflexivity.
  - intros Hr Hop. apply Hcons. unfold Filter.test. rewrite Hop.
    destruct (getattr x _) as [v|]; [reflexivity | discriminate].
Qed.

Lemma apply_failures_witness :
  Filter.apply filter_unknown [Neo entry_ten] = Raise TypeError ∧
  Filter.apply distance_gt_100 [Neo entry_ten] = Raise AttributeError ∧
  Filter.apply diameter_gt_9 [Path event_0101] = Raise AttributeError ∧
  Filter.apply diameter_gt_9 [PyNone] = Raise AttributeError ∧
  Filter.apply (Filter.mk "diameter" "NearEarthObject" "<" (VStr "9")) [Neo entry_ten] =
    Raise TypeError.
Proof.
  split; [|split; [|split; [|split]]].
  - apply (proj1 (proj2 (apply_failures filter_unknown (Neo entry_ten) []))). reflexivity.
  - apply (proj1 (proj2 (proj2 (apply_failures distance_gt_100 (Neo entry_ten) []))));
      [by eexists | reflexivity].
  - apply (proj1 (proj2 (proj2 (apply_failures diameter_gt_9 (Path event_0101) []))));
      [by eexists | reflexivity].
  - apply (proj1 (proj2 (proj2 (apply_failures diameter_gt_9 PyNone []))));
      [by eexists | reflexivity].
  - apply (proj2 (proj2 (proj2 (apply_failures
             (Filter.mk "diameter" "NearEarthObject" "<" (VStr "9")) (Neo entry_ten) []))));
      reflexivity.
Defined.

(** X9: filtering a concatenation is filtering its two parts and concatenating
    the outcomes, the exception of the first part that raises included. *)
Theorem apply_concatenation (f : Filter.t) (xs ys : list entity) :
  Filter.apply f (xs ++ ys) =
    (xs' ← Filter.apply f xs; ys' ← Filter.apply f ys; Ok (xs' ++ ys')).
Proof. apply apply_app. Qed.

(** X10: two filters that both return on a list can be applied to it in either
    order: the second application returns as well, and both orders keep
    exactly the entities that pass the two tests. *)
Theorem apply_commutes (f g : Filter.t) (xs ys zs : list entity) :
  Filter.apply f xs = Ok ys → Filter.apply g xs = Ok zs →
  Filter.apply g ys = Ok (List.filter (λ x, passes f x && passes g x) xs) ∧
  Filter.apply f zs = Ok (List.filter (λ x, passes f x && passes g x) xs).
Proof.
  intros Hf Hg.
  apply apply_Ok_filter in Hf as [-> Hf]. apply apply_Ok_filter in Hg as [-> Hg].
  rewrite !apply_testable by (now apply forallb_filter).
  assert (Hboth : ∀ (p q : entity → bool) l,
            List.filter q (List.filter p l) = List.filter (λ x, p x && q x) l).
  { intros p q l. induction l as [|x l IH]; [done|]. simpl.
    destruct (p x) eqn:Hp; simpl; [destruct (q x)|]; now rewrite IH. }
  split; [now rewrite Hboth|].
  now rewrite filter_filter_comm, Hboth.
Qed.

Lemma apply_commutes_witness :
  Filter.apply diameter_gt_9 [Neo entry_ten] =
    Ok (List.filter (λ x, passes diameter_gt_03 x && passes diameter_gt_9 x)
                    [Neo entry_ten; Neo entry_tenth]) ∧
  Filter.apply diameter_gt_03 [] =
    Ok (List.filter (λ x, passes diameter_gt_03 x && passes diameter_gt_9 x)
                    [Neo entry_ten; Neo entry_tenth]).
Proof.
  apply (apply_commutes diameter_gt_03 diameter_gt_9 [Neo entry_ten; Neo entry_tenth]);
    vm_compute; reflexivity.
Defined.

(** ** The date selection *)

Lemma equal_absent (orbit_path : dict (list NearEarthObject.t)) (d : string) :
  d ∉ map fst orbit_path →
  NEOSearcher.return_date_search_equal orbit_path (Query.One d) = [] ∧
  dict_get orbit_path d = None.
Proof.
  induction orbit_path as [|[key value] rest IH]; simpl; [done|].
  intros Hd. apply not_elem_of_cons in Hd as [Hne Hd].
  unfold str_eq. destruct (String.eqb_spec key d) as [->|_]; [done|]. auto.
Qed.

(** X11: in an index whose keys are distinct, as those of a dict are, the
    selection for an exact date is the list registered under that date, in its
    order, and the empty list when the date is not a key. *)
Theorem equal_is_lookup (orbit_path : dict (list NearEarthObject.t)) (d : string) :
  NoDup (map fst orbit_path) →
  NEOSearcher.return_date_search_equal orbit_path (Query.One d) =
    map Neo (default [] (dict_get orbit_path d)) ∧
  (d ∉ map fst orbit_path →
   NEOSearcher.return_date_search_equal orbit_path (Query.One d) = []).
Proof.
  intros Hnd. split; [|intros Hd; now apply equal_absent].
  induction orbit_path as [|[key value] rest IH]; simpl; [done|].
  simpl in Hnd. apply NoDup_cons in Hnd as [Hkey Hnd].
  unfold str_eq. destruct (String.eqb_spec key d) as [->|_]; [|auto].
  destruct (equal_absent rest d Hkey) as [-> _]. now rewrite app_nil_r.
Qed.

Lemma equal_is_lookup_witness :
  NEOSearcher.return_date_search_equal
      (NEODatabase.neo_date index_A0) (Query.One "2020-01-02") =
    map Neo (default [] (dict_get (NEODatabase.neo_date index_A0) "2020-01-02")).
Proof.
  apply (equal_is_lookup (NEODatabase.neo_date index_A0) "2020-01-02").
  repeat constructor; vm_compute; intros H;
    repeat (apply elem_of_cons in H as [H|H]; [discriminate|]); inversion H.
Defined.

(** The order on date keys is transitive, and a strict inequality excludes the
    converse one. *)
Lemma str_le_trans (a b c : string) :
  str_le a b = true → str_le b c = true → str_le a c = true.
Proof.
  revert b c. induction a as [|x s IH]; intros b c Hab Hbc.
  - now destruct c.
  - destruct b as [|y t]; [discriminate|]. destruct c as [|z u]; [discriminate|].
    destruct (str_le_lexicographic x y s t) as (_ & _ & Exy).
    destruct (str_le_lexicographic y z t u) as (_ & _ & Eyz).
    destruct (str_le_lexicographic x z s u) as (_ & _ & Exz).
    rewrite Exy in Hab. rewrite Eyz in Hbc. rewrite Exz.
    destruct (N.compare_spec (N_of_ascii x) (N_of_ascii y)) as [Hxy|Hxy|Hxy];
      destruct (N.compare_spec (N_of_ascii y) (N_of_ascii z)) as [Hyz|Hyz|Hyz];
      try discriminate;
      destruct (N.compare_spec (N_of_ascii x) (N_of_ascii z)) as [Hxz|Hxz|Hxz];
      try lia; eauto.
Qed.

Lemma str_lt_not_le (a b : string) : str_lt a b = true → str_le b a = false.
Proof.
  unfold str_lt, str_le, String.ltb, String.leb. rewrite (String.compare_antisym a b).
  now destruct (String.compare b a).
Qed.

(** X12: a range whose end is before its start selects nothing and raises
    nothing, whatever the index holds. *)
Theorem reversed_range_is_empty (orbit_path : dict (list NearEarthObject.t))
    (start_date end_date : string) :
  str_lt end_date start_date = true →
  NEOSearcher.return_date_search_between orbit_path (Some start_date) (Some end_date) = Ok [].
Proof.
  intros Hlt. apply between_none. apply forallb_forall. intros [key value] _. simpl.
  apply negb_true_iff. unfold in_range.
  destruct (str_le start_date key) eqn:H1; [|done].
  destruct (str_le key end_date) eqn:H2; [|done].
  pose proof (str_le_trans _ _ _ H1 H2) as H3.
  rewrite (str_lt_not_le _ _ Hlt) in H3. discriminate.
Qed.

Lemma reversed_range_is_empty_witness :
  NEOSearcher.return_date_search_between (NEODatabase.neo_date index_A0)
    (Some "2020-01-02") (Some "2020-01-01") = Ok [].
Proof. apply reversed_range_is_empty. reflexivity. Defined.

(** X13: a range with an absent end.  On an empty index the selection is
    empty whatever the ends.  On an index with a key, an absent start raises
    [TypeError]; with the start given and the end absent it raises
    [TypeError] when some key is at or after the start and selects nothing
    otherwise.  [get_objects] passes the exception on. *)
Theorem between_absent_end (order : list entity → list entity) (self : NEOSearcher.t)
    (q : Query.Selectors.t) (key : string) (value : list NearEarthObject.t)
    (rest : dict (list NearEarthObject.t)) (s : string) (e : option string) :
  NEOSearcher.return_date_search_between [] None e = Ok [] ∧
  NEOSearcher.return_date_search_between ((key, value) :: rest) None e = Raise TypeError ∧
  NEOSearcher.return_date_search_between ((key, value) :: rest) (Some s) None =
    (if existsb (λ kv, str_le s kv.1) ((key, value) :: rest) then Raise TypeError else Ok []) ∧
  (Query.Selectors.date_search q = Query.mkDateSearch "between" (Query.Two None e) →
   NEOSearcher.neo_date self = (key, value) :: rest →
   NEOSearcher.get_objects order self q = Raise TypeError).
Proof.
  split; [reflexivity|]. split; [reflexivity|]. split.
  - generalize ((key, value) :: rest). intros l.
    induction l as [|[k v] l IH]; [done|]. cbn [NEOSearcher.return_date_search_between existsb].
    simpl. destruct (str_le s k); simpl; [done|]. rewrite IH. now destruct (existsb _ l).
  - intros Hq Hnd. unfold NEOSearcher.get_objects, NEOSearcher.filtered,
      NEOSearcher.date_selection. now rewrite Hq, Hnd.
Qed.

Lemma between_absent_end_witness :
  NEOSearcher.get_objects dedup (NEOSearcher.init index_A0) plan_no_dates = Raise TypeError.
Proof.
  apply (proj2 (proj2 (proj2 (between_absent_end dedup (NEOSearcher.init index_A0)
           plan_no_dates "2020-01-01"
           [entry_A "2000433" (float_of_decimal false 5 (-1)) "False"]
           [("2020-01-02", [entry_A "2000433" (float_of_decimal false 5 (-1)) "False"])]
           "" None)))); reflexivity.
Defined.

(** ** What [get_objects] returns, plan by plan *)

Lemma apply_filters_nil (fs : list Filter.t) :
  ∀ d0, ∃ df, NEOSearcher.apply_filters fs d0 [] = Ok (df, []).
Proof.
  induction fs as [|f fs IH]; intros d0; simpl; [eauto|].
  destruct (String.eqb _ _); [apply IH|]. simpl. apply IH.
Qed.

Lemma apply_each_sublist (fs : list Filter.t) :
  ∀ xs ys, apply_each fs xs = Ok ys → ys `sublist_of` xs.
Proof.
  induction fs as [|f fs IH]; intros xs ys H; simpl in H.
  - now injection H as <-.
  - bind_inv H. etransitivity; [eapply IH, H | eapply apply_Ok_sublist, Ha].
Qed.

Lemma apply_filters_sublist (fs : list Filter.t) (d0 df : option Filter.t)
    (neos l : list entity) :
  NEOSearcher.apply_filters fs d0 neos = Ok (df, l) → l `sublist_of` neos.
Proof.
  rewrite apply_filters_spec. intros H. bind_inv H. injection H as _ <-.
  eapply apply_each_sublist, Ha.
Qed.

Lemma equal_members (orbit_path : dict (list NearEarthObject.t)) (date : Query.values)
    (x : entity) :
  x ∈ NEOSearcher.return_date_search_equal orbit_path date →
  ∃ key value n, (key, value) ∈ orbit_path ∧ n ∈ value ∧ x = Neo n.
Proof.
  induction orbit_path as [|[key value] rest IH]; simpl; [intros H; inversion H|].
  destruct (NEOSearcher.key_is key date).
  - rewrite elem_of_app. intros [Hx|Hx].
    + apply list_elem_of_fmap in Hx as (n & -> & Hn). exists key, value, n.
      split; [left | done].
    + destruct (IH Hx) as (k & v & n & Hin & Hn & ->). exists k, v, n.
      split; [by right | done].
  - intros Hx. destruct (IH Hx) as (k & v & n & Hin & Hn & ->). exists k, v, n.
    split; [by right | done].
Qed.

Lemma between_members (orbit_path : dict (list NearEarthObject.t))
    (s e : option string) :
  ∀ l x, NEOSearcher.return_date_search_between orbit_path s e = Ok l → x ∈ l →
         ∃ key value n, (key, value) ∈ orbit_path ∧ n ∈ value ∧ x = Neo n.
Proof.
  induction orbit_path as [|[key value] rest IH]; intros l x H Hx; simpl in H.
  - injection H as <-. inversion Hx.
  - bind_inv H. bind_inv H. bind_inv H. injection H as <-.
    assert (Hrest : x ∈ a1 → ∃ key0 value0 n,
              (key0, value0) ∈ (key, value) :: rest ∧ n ∈ value0 ∧ x = Neo n).
    { intros Hx'. destruct (IH a1 x Ha1 Hx') as (k & v & n & Hin & Hn & ->).
      exists k, v, n. split; [by right | done]. }
    destruct a0; [|auto].
    apply elem_of_app in Hx as [Hx|Hx]; [|auto].
    apply list_elem_of_fmap in Hx as (n & -> & Hn). exists key, value, n.
    split; [left | done].
Qed.

(** Whatever the date search, what it selects are entries of the date index. *)
Lemma date_selection_members (self : NEOSearcher.t) (q : Query.Selectors.t)
    (neos : list entity) (x : entity) :
  NEOSearcher.date_selection self q = Ok neos → x ∈ neos →
  ∃ key value n, (key, value) ∈ NEOSearcher.neo_date self ∧ n ∈ value ∧ x = Neo n.
Proof.
  unfold NEOSearcher.date_selection.
  destruct (String.eqb _ _).
  - intros [= <-]. apply equal_members.
  - destruct (String.eqb _ _).
    + intros H. bind_inv H. bind_inv H. eapply between_members, H.
    + intros [= <-] Hx. inversion Hx.
Qed.

Lemma orbit_paths_members (neos : list entity) :
  ∀ orbits, NEOSearcher.return_orbit_paths_from_neos neos = Ok orbits →
    ∀ x, x ∈ orbits → ∃ n p, Neo n ∈ neos ∧ p ∈ NearEarthObject.orbits n ∧ x = Path p.
Proof.
  induction neos as [|e neos IH]; intros orbits H x Hx; simpl in H.
  - injection H as <-. inversion Hx.
  - destruct e as [n| |]; try discriminate. bind_inv H. injection H as <-.
    apply elem_of_app in Hx as [Hx|Hx].
    + apply list_elem_of_fmap in Hx as (p & -> & Hp). exists n, p. split; [left | done].
    + destruct (IH a Ha x Hx) as (n' & p & Hn & Hp & ->). exists n', p.
      split; [by right | done].
Qed.

Lemma neos_of_paths_members (self : NEOSearcher.t) (orbit_paths : list entity) :
  ∀ neos, NEOSearcher.return_neo_from_orbit_path self orbit_paths = Ok neos →
    length neos = length orbit_paths ∧
    ∀ x, x ∈ neos →
      ∃ p, Path p ∈ orbit_paths ∧
           x = match dict_get (NEODatabase.neo_name (NEOSearcher.db self))
                              (OrbitPath.neo_name p) with
               | Some neo => Neo neo
               | None => PyNone
               end.
Proof.
  induction orbit_paths as [|e paths IH]; intros neos H; simpl in H.
  - injection H as <-. split; [done|]. intros x Hx. inversion Hx.
  - destruct e as [|p|]; try discriminate. bind_inv H. injection H as <-.
    destruct (IH a Ha) as [Hlen Hmem]. split; [simpl; now rewrite Hlen|].
    intros x Hx. apply elem_of_cons in Hx as [->|Hx].
    + exists p. split; [left | done].
    + destruct (Hmem x Hx) as (p' & Hp' & ->). exists p'. split; [by right | done].
Qed.

Lemma dedup_elem_of (l : list entity) (x : entity) : x ∈ dedup l → x ∈ l.
Proof.
  induction l as [|y l IH]; simpl; [done|].
  case_bool_decide as Hd; [right; auto|].
  intros H. apply elem_of_cons in H as [->|H]; [left | right; auto].
Qed.

(** Every member of the result is a member of the list of the selected shape
    before deduplication. *)
Lemma get_objects_members (order : list entity → list entity) (self : NEOSearcher.t)
    (q : Query.Selectors.t) (res : list entity) :
  set_order_spec order → NEOSearcher.get_objects order self q = Ok res →
  ∃ both, NEOSearcher.filtered self q = Ok both ∧ ∀ x, x ∈ res → x ∈ shaped q both.
Proof.
  intros Ho H. destruct (NEOSearcher.filtered self q) as [both|e] eqn:Hb.
  - exists both. split; [done|].
    rewrite (get_objects_shaped order self q both Hb) in H. injection H as <-.
    intros x Hx. apply dedup_elem_of. rewrite <- (Ho (shaped q both)).
    unfold slice_to in Hx. destruct (0 <=? _); eapply elem_of_sublist; eauto using sublist_take.
  - unfold NEOSearcher.get_objects in H. rewrite Hb in H. discriminate.
Qed.

(** The stages behind a pair that [filtered] returns. *)
Lemma filtered_stages (self : NEOSearcher.t) (q : Query.Selectors.t)
    (both : list entity * list entity) :
  NEOSearcher.filtered self q = Ok both →
  ∃ neos df l orbits,
    NEOSearcher.date_selection self q = Ok neos ∧
    NEOSearcher.apply_filters (Query.Selectors.filters q) None neos = Ok (df, l) ∧
    NEOSearcher.return_orbit_paths_from_neos l = Ok orbits ∧
    match df with
    | Some d => Filter.apply d orbits = Ok both.2 ∧
                NEOSearcher.return_neo_from_orbit_path self both.2 = Ok both.1
    | None => both = (l, orbits)
    end.
Proof.
  unfold NEOSearcher.filtered. intros H.
  bind_inv H. bind_inv H. destruct a0 as [df l]. bind_inv H. simpl in *.
  exists a, df, l, a0. repeat (split; [done|]).
  destruct df as [d|].
  - bind_inv H. bind_inv H. now injection H as <-.
  - now injection H as <-.
Qed.

(** Every event in the second list belongs to an entry of the date index. *)
Lemma filtered_events (self : NEOSearcher.t) (q : Query.Selectors.t)
    (both : list entity * list entity) (x : entity) :
  NEOSearcher.filtered self q = Ok both → x ∈ both.2 →
  ∃ key value n p, (key, value) ∈ NEOSearcher.neo_date self ∧ n ∈ value ∧
                   p ∈ NearEarthObject.orbits n ∧ x = Path p.
Proof.
  intros H Hx. apply filtered_stages in H as (neos & df & l & orbits & Hd & Hf & Ho & Hdf).
  assert (Hx' : x ∈ orbits).
  { destruct df as [d|]; [|by subst both].
    destruct Hdf as [Hfo _]. eapply elem_of_sublist; [exact Hx|]. eapply apply_Ok_sublist, Hfo. }
  destruct (orbit_paths_members l orbits Ho x Hx') as (n & p & Hn & Hp & ->).
  assert (Hn' : Neo n ∈ neos).
  { eapply elem_of_sublist; [exact Hn|]. eapply apply_filters_sublist, Hf. }
  destruct (date_selection_members self q neos _ Hd Hn') as (k & v & n' & Hin & Hv & [= <-]).
  eauto 10.
Qed.

(** X14: a date search that is neither [equals] nor [between] is no error:
    [get_objects] returns the empty list, whatever the filters, known to the
    tables or not. *)
Theorem unknown_mode_is_empty (order : list entity → list entity) (self : NEOSearcher.t)
    (q : Query.Selectors.t) :
  set_order_spec order →
  String.eqb (Query.type (Query.Selectors.date_search q)) "equals" = false →
  String.eqb (Query.type (Query.Selectors.date_search q)) "between" = false →
  NEOSearcher.get_objects order self q = Ok [].
Proof.
  intros Ho He Hb.
  assert (Hboth : NEOSearcher.filtered self q = Ok ([], [])).
  { unfold NEOSearcher.filtered, NEOSearcher.date_selection. simpl. rewrite He, Hb. simpl.
    destruct (apply_filters_nil (Query.Selectors.filters q) None) as [df ->]. simpl.
    now destruct df. }
  rewrite (get_objects_shaped order self q _ Hboth).
  assert (shaped q ([], []) = []) as ->.
  { unfold shaped. destruct (Query.Selectors.return_object q) as [c|]; [destruct c|]; done. }
  rewrite (order_nil order Ho). unfold slice_to. destruct (0 <=? _); now rewrite take_nil.
Qed.

Lemma unknown_mode_is_empty_witness :
  NEOSearcher.get_objects dedup (NEOSearcher.init index_A0) plan_unknown_mode = Ok [].
Proof.
  apply (unknown_mode_is_empty dedup (NEOSearcher.init index_A0) plan_unknown_mode);
    [apply dedup_order | reflexivity | reflexivity].
Defined.

(** X15: a name of the result shape that [Query.ReturnObjects] does not know
    behaves as the name [NEO] from the raw query to the result: building the
    plan and running it gives the same outcome for both names. *)
Theorem unknown_shape_is_entry_shape (order : list entity → list entity)
    (self : NEOSearcher.t) (q : Query.t) :
  dict_get Query.ReturnObjects (Query.return_object q) = None →
  (Query.build_query q ≫= NEOSearcher.get_objects order self) =
  (Query.build_query (with_return_object q "NEO") ≫= NEOSearcher.get_objects order self).
Proof.
  intros Hro. rewrite !build_query_outcome.
  change (Query.filter (with_return_object q "NEO")) with (Query.filter q).
  destruct (Query.filter q); [|done]. rewrite Hro.
  change (date_search_of (with_return_object q "NEO")) with (date_search_of q).
  reflexivity.
Qed.

Lemma unknown_shape_is_entry_shape_witness :
  (Query.build_query query_planet ≫= NEOSearcher.get_objects dedup (NEOSearcher.init index_A0)) =
  (Query.build_query (with_return_object query_planet "NEO") ≫=
     NEOSearcher.get_objects dedup (NEOSearcher.init index_A0)).
Proof. apply unknown_shape_is_entry_shape. reflexivity. Defined.

(** X16: the kind of what [get_objects] returns.  With the shape [OrbitPath]
    every member of the result is an event, and an event of an entry
    registered in the date index; with any other shape no member is an event;
    and without distance filter every member is an entry registered in the
    date index. *)
Theorem result_kinds (order : list entity → list entity) (self : NEOSearcher.t)
    (q : Query.Selectors.t) (res : list entity) :
  set_order_spec order → NEOSearcher.get_objects order self q = Ok res →
  (Query.Selectors.return_object q = Some OrbitPath_class →
   ∀ x, x ∈ res →
     ∃ key value n p, (key, value) ∈ NEOSearcher.neo_date self ∧ n ∈ value ∧
                      p ∈ NearEarthObject.orbits n ∧ x = Path p) ∧
  (Query.Selectors.return_object q ≠ Some OrbitPath_class →
   Forall (λ x, is_path x = false) res) ∧
  (Query.Selectors.return_object q ≠ Some OrbitPath_class →
   existsb is_distance (Query.Selectors.filters q) = false →
   ∀ x, x ∈ res →
     ∃ key value n, (key, value) ∈ NEOSearcher.neo_date self ∧ n ∈ value ∧ x = Neo n).
Proof.
  intros Ho H.
  destruct (get_objects_members order self q res Ho H) as (both & Hboth & Hmem).
  assert (Hshape : Query.Selectors.return_object q ≠ Some OrbitPath_class →
                   shaped q both = both.1).
  { unfold shaped. destruct (Query.Selectors.return_object q) as [[]|]; congruence. }
  pose proof (filtered_stages self q both Hboth)
    as (neos & df & l & orbits & Hd & Hf & Hob & Hdf).
  assert (Hl : ∀ x, x ∈ l →
            ∃ key value n, (key, value) ∈ NEOSearcher.neo_date self ∧ n ∈ value ∧ x = Neo n).
  { intros x Hx. eapply date_selection_members; [exact Hd|].
    eapply elem_of_sublist; [exact Hx|]. eapply apply_filters_sublist, Hf. }
  split; [|split].
  - intros Hro x Hx. apply (filtered_events self q both x Hboth).
    specialize (Hmem x Hx). unfold shaped in Hmem. now rewrite Hro in Hmem.
  - intros Hro. apply Forall_forall. intros x Hx.
    specialize (Hmem x Hx). rewrite (Hshape Hro) in Hmem.
    destruct df as [d|].
    + destruct Hdf as [_ Hfn].
      destruct (neos_of_paths_members self _ _ Hfn) as [_ Hfrom].
      destruct (Hfrom x Hmem) as (p & _ & ->). now destruct (dict_get _ _).
    + subst both. destruct (Hl x Hmem) as (k & v & n & _ & _ & ->). done.
  - intros Hro Hnd x Hx. specialize (Hmem x Hx). rewrite (Hshape Hro) in Hmem.
    rewrite apply_filters_spec in Hf. bind_inv Hf. injection Hf as Hdf' ->.
    assert (distances (Query.Selectors.filters q) = []) as Hnil.
    { unfold distances. clear -Hnd. induction (Query.Selectors.filters q) as [|f fs IH];
        [done|]. simpl in *. apply orb_false_elim in Hnd as [-> Hnd]. auto. }
    rewrite Hnil in Hdf'. simpl in Hdf'. subst df both. auto.
Qed.

Lemma result_kinds_witness :
  ∃ key value n p, (key, value) ∈ NEOSearcher.neo_date (NEOSearcher.init index_A0) ∧
                   n ∈ value ∧ p ∈ NearEarthObject.orbits n ∧ Path event_0102 = Path p.
Proof.
  apply (proj1 (result_kinds dedup (NEOSearcher.init index_A0) plan_paths
                  [Path event_0101; Path event_0102] dedup_order eq_refl)).
  - reflexivity.
  - right. left.
Defined.

(** X17: [None] among the results betrays an index that is not closed under
    names: some entry registered in the date index has an event whose name is
    no key of [neo_name]. *)
Theorem none_needs_missing_name (order : list entity → list entity) (self : NEOSearcher.t)
    (q : Query.Selectors.t) (res : list entity) :
  set_order_spec order → NEOSearcher.get_objects order self q = Ok res →
  PyNone ∈ res →
  ∃ key value n p,
    (key, value) ∈ NEOSearcher.neo_date self ∧ n ∈ value ∧
    p ∈ NearEarthObject.orbits n ∧
    dict_get (NEODatabase.neo_name (NEOSearcher.db self)) (OrbitPath.neo_name p) = None.
Proof.
  intros Ho H Hnone.
  destruct (get_objects_members order self q res Ho H) as (both & Hboth & Hmem).
  specialize (Hmem PyNone Hnone).
  pose proof (filtered_stages self q both Hboth)
    as (neos & df & l & orbits & Hd & Hf & Hob & Hdf).
  assert (Hin1 : PyNone ∈ both.1).
  { unfold shaped in Hmem. destruct (Query.Selectors.return_object q) as [[]|]; try done.
    destruct (filtered_events self q both PyNone Hboth Hmem) as (? & ? & ? & ? & _ & _ & _ & ?).
    discriminate. }
  destruct df as [d|].
  - destruct Hdf as [_ Hfn].
    destruct (neos_of_paths_members self _ _ Hfn) as [_ Hfrom].
    destruct (Hfrom PyNone Hin1) as (p & Hp & Hlook).
    destruct (filtered_events self q both (Path p) Hboth Hp)
      as (key & value & n & p' & Hkv & Hn & Hp' & [= <-]).
    exists key, value, n, p. repeat (split; [done|]).
    destruct (dict_get _ _); [discriminate | done].
  - subst both. simpl in Hin1.
    assert (Hin : PyNone ∈ neos).
    { eapply elem_of_sublist; [exact Hin1|]. eapply apply_filters_sublist, Hf. }
    destruct (date_selection_members self q neos _ Hd Hin) as (? & ? & ? & _ & _ & ?).
    discriminate.
Qed.

Lemma none_needs_missing_name_witness :
  ∃ key value n p,
    (key, value) ∈ [("2020-01-01", [entry_ten_orphan])] ∧ n ∈ value ∧
    p ∈ NearEarthObject.orbits n ∧
    dict_get (NEODatabase.neo_name index_orphan) (OrbitPath.neo_name p) = None.
Proof.
  apply (none_needs_missing_name dedup (NEOSearcher.init index_orphan) plan_orphan [PyNone]).
  - apply dedup_order.
  - reflexivity.
  - left.
Defined.

(** X18: a cap that is not positive is taken as a slice bound all the same:
    zero returns the empty list, and a negative cap [-k] returns the
    deduplicated list without its last [k] members. *)
Theorem nonpositive_cap (order : list entity → list entity) (self : NEOSearcher.t)
    (q : Query.Selectors.t) (both : list entity * list entity) :
  set_order_spec order → NEOSearcher.filtered self q = Ok both →
  (Query.Selectors.number q = 0 → NEOSearcher.get_objects order self q = Ok []) ∧
  (Query.Selectors.number q < 0 →
   ∃ res, NEOSearcher.get_objects order self q = Ok res ∧
          res = take (length (order (shaped q both)) - Z.to_nat (- Query.Selectors.number q))
                     (order (shaped q both)) ∧
          length res =
            (length (dedup (shaped q both)) - Z.to_nat (- Query.Selectors.number q))%nat).
Proof.
  intros Ho Hboth. rewrite (get_objects_shaped order self q both Hboth). unfold slice_to.
  split.
  - now intros ->.
  - intros Hn. replace (0 <=? _) with false by (symmetry; apply Z.leb_gt; lia).
    eexists. split; [reflexivity|].
    assert (Z.to_nat (Z.of_nat (length (order (shaped q both))) + Query.Selectors.number q) =
            (length (order (shaped q both)) - Z.to_nat (- Query.Selectors.number q))%nat)
      as -> by lia.
    split; [done|]. rewrite length_take, (order_length order _ Ho). lia.
Qed.

Lemma nonpositive_cap_witness :
  NEOSearcher.get_objects dedup (NEOSearcher.init index_A0) (with_number plan_paths 0) = Ok [] ∧
  ∃ res, NEOSearcher.get_objects dedup (NEOSearcher.init index_A0)
           (with_number plan_paths (-1)) = Ok res ∧
         length res = 1%nat.
Proof.
  split.
  - apply (proj1 (nonpositive_cap dedup (NEOSearcher.init index_A0) (with_number plan_paths 0)
                    ([Neo (entry_A "2000433" (float_of_decimal false 5 (-1)) "False")],
                     [Path event_0101; Path event_0102]) dedup_order eq_refl)).
    reflexivity.
  - destruct (proj2 (nonpositive_cap dedup (NEOSearcher.init index_A0)
                       (with_number plan_paths (-1))
                       ([Neo (entry_A "2000433" (float_of_decimal false 5 (-1)) "False")],
                        [Path event_0101; Path event_0102]) dedup_order eq_refl))
      as (res & H1 & _ & H3); [reflexivity|].
    exists res. split; [exact H1 | exact H3].
Defined.

(** X19: expansion and contraction.  The events of a list of entries are all
    the events of each entry, entry after entry.  When every entry is
    consistently indexed (its name leads back to it, its events carry its
    name), mapping these events back to entries gives each entry once for
    each of its events, and an entry without event disappears. *)
Theorem expansion_contraction (self : NEOSearcher.t) (ns : list NearEarthObject.t) :
  NEOSearcher.return_orbit_paths_from_neos (map Neo ns) =
    Ok (map Path (concat (map NearEarthObject.orbits ns))) ∧
  (Forall (consistent self) ns →
   NEOSearcher.return_neo_from_orbit_path self
       (map Path (concat (map NearEarthObject.orbits ns))) =
     Ok (concat (map (λ n, replicate (length (NearEarthObject.orbits n)) (Neo n)) ns))).
Proof.
  split.
  - induction ns as [|n ns IH]; [done|]. simpl. rewrite IH. simpl.
    now rewrite map_app.
  - induction 1 as [|n ns [Hname Hevents] _ IH]; [done|]. simpl.
    rewrite map_app.
    assert (Happ : ∀ xs ys xs' ys',
              NEOSearcher.return_neo_from_orbit_path self xs = Ok xs' →
              NEOSearcher.return_neo_from_orbit_path self ys = Ok ys' →
              NEOSearcher.return_neo_from_orbit_path self (xs ++ ys) = Ok (xs' ++ ys')).
    { intros xs. induction xs as [|x xs IHxs]; intros ys xs' ys' Hx Hy; simpl in *.
      - now injection Hx as <-.
      - destruct x as [|p|]; try discriminate. bind_inv Hx. injection Hx as <-.
        now rewrite (IHxs ys a ys' Ha Hy). }
    apply Happ; [|exact IH].
    clear -Hname Hevents. induction Hevents as [|p ps Hp _ IHps]; [done|].
    simpl. rewrite IHps. simpl. now rewrite Hp, Hname.
Qed.

Lemma expansion_contraction_witness :
  NEOSearcher.return_neo_from_orbit_path (NEOSearcher.init index_A0)
      (map Path (concat (map NearEarthObject.orbits
         [entry_A "2000433" (float_of_decimal false 5 (-1)) "False"]))) =
    Ok (concat (map (λ n, replicate (length (NearEarthObject.orbits n)) (Neo n))
         [entry_A "2000433" (float_of_decimal false 5 (-1)) "False"])).
Proof.
  apply (proj2 (expansion_contraction (NEOSearcher.init index_A0)
                  [entry_A "2000433" (float_of_decimal false 5 (-1)) "False"])).
  repeat constructor.
Defined.

(** ** [NEOWriter.write] *)

Lemma write_rows_entries (fails : NEOWriter.call → bool) (ns : list NearEarthObject.t) :
  (∀ r, fails (NEOWriter.Writerow r) = false) →
  ∀ done, NEOWriter.write_rows fails (map Neo ns) done =
            (done ++ map (λ n, NEOWriter.Writerow (entry_row n)) ns, Ok true).
Proof.
  intros Hw. induction ns as [|n ns IH]; intros done; simpl.
  - now rewrite app_nil_r.
  - fold (entry_row n). rewrite Hw, IH. now rewrite <- app_assoc.
Qed.

Lemma write_rows_stop (fails : NEOWriter.call → bool) (ns : list NearEarthObject.t)
    (e : entity) (rest : list entity) :
  (∀ r, fails (NEOWriter.Writerow r) = false) → is_neo e = false →
  ∀ done, NEOWriter.write_rows fails (map Neo ns ++ e :: rest) done =
            (done ++ map (λ n, NEOWriter.Writerow (entry_row n)) ns, Raise AttributeError).
Proof.
  intros Hw He. induction ns as [|n ns IH]; intros done; simpl.
  - rewrite app_nil_r. now destruct e.
  - fold (entry_row n). rewrite Hw, IH. now rewrite <- app_assoc.
Qed.

Lemma write_rows_returns (fails : NEOWriter.call → bool) (ns : list NearEarthObject.t) :
  ∀ done, ∃ calls b, NEOWriter.write_rows fails (map Neo ns) done = (calls, Ok b).
Proof.
  induction ns as [|n ns IH]; intros done; simpl; [eauto|].
  destruct (fails _); [eauto | apply IH].
Qed.

(** X20: the formats of [write].  [display] prints the data once and returns
    [True] whatever the data holds, or returns [False] when printing raises
    [IOError]; a format that is neither [display] nor [csv_file] does nothing
    and returns [False]; and [write] on a list of entries returns a boolean
    for every format and every failure of its collaborators: it does not
    raise. *)
Theorem write_formats (fails : NEOWriter.call → bool) (format : string)
    (data : list entity) (ns : list NearEarthObject.t) :
  NEOWriter.write fails NEOWriter.init "display" data =
    (if fails (NEOWriter.Print data) then ([], Ok false)
     else ([NEOWriter.Print data], Ok true)) ∧
  (String.eqb format "display" = false → String.eqb format "csv_file" = false →
   NEOWriter.write fails NEOWriter.init format data = ([], Ok false)) ∧
  ∃ calls b, NEOWriter.write fails NEOWriter.init format (map Neo ns) = (calls, Ok b).
Proof.
  split; [reflexivity|]. split.
  - intros Hd Hc. unfold NEOWriter.write. cbn [getitem NEOWriter.init NEOWriter.output_formats
      OutputFormat.list map OutputFormat.value lookup list_lookup]. now rewrite Hd, Hc.
  - unfold NEOWriter.write. cbn [getitem NEOWriter.init NEOWriter.output_formats
      OutputFormat.list map OutputFormat.value lookup list_lookup].
    destruct (String.eqb format "display"); [destruct (fails _); eauto|].
    destruct (String.eqb format "csv_file"); [|eauto].
    destruct (fails _); [eauto|]. destruct (fails _); [eauto|].
    apply write_rows_returns.
Qed.

Lemma write_formats_witness :
  NEOWriter.write never_fails NEOWriter.init "json" [Neo entry_ten; PyNone] = ([], Ok false).
Proof.
  apply (proj1 (proj2 (write_formats never_fails "json" [Neo entry_ten; PyNone] [])));
    reflexivity.
Defined.

(** X21: [csv_file] on a list of entries, when no call fails, opens the results
    file for writing, writes the header and one row for each entry, in the
    order of the list (a repeated entry gives a repeated row), and returns
    [True]; when [open] fails it writes nothing and returns [False]. *)
Theorem write_csv_entries (fails : NEOWriter.call → bool) (ns : list NearEarthObject.t)
    (data : list entity) :
  (fails (NEOWriter.Open "data/neo_data_results.csv" "w") = false →
   fails (NEOWriter.Writeheader NEOWriter.fieldnames) = false →
   (∀ r, fails (NEOWriter.Writerow r) = false) →
   NEOWriter.write fails NEOWriter.init "csv_file" (map Neo ns) =
     (csv_opening ++ map (λ n, NEOWriter.Writerow (entry_row n)) ns, Ok true)) ∧
  (fails (NEOWriter.Open "data/neo_data_results.csv" "w") = true →
   NEOWriter.write fails NEOWriter.init "csv_file" data = ([], Ok false)).
Proof.
  split.
  - intros Ho Hh Hw. unfold NEOWriter.write. simpl. rewrite Ho, Hh.
    apply write_rows_entries, Hw.
  - intros Ho. unfold NEOWriter.write. simpl. now rewrite Ho.
Qed.

Lemma write_csv_entries_witness :
  NEOWriter.write never_fails NEOWriter.init "csv_file" (map Neo [entry_ten; entry_tenth]) =
    (csv_opening ++ map (λ n, NEOWriter.Writerow (entry_row n)) [entry_ten; entry_tenth],
     Ok true) ∧
  NEOWriter.write open_fails NEOWriter.init "csv_file" [PyNone] = ([], Ok false).
Proof.
  split.
  - apply (proj1 (write_csv_entries never_fails [entry_ten; entry_tenth] [])); reflexivity.
  - apply (proj2 (write_csv_entries open_fails [] [PyNone])). reflexivity.
Defined.

(** X22: [csv_file] on a list that holds something else than an entry, when
    no call fails, raises [AttributeError] at the first such member, after the
    header and the rows of the entries before it have been written.  So the
    non-empty result of a search of shape [OrbitPath] cannot be written as
    csv: the call raises with the header alone written. *)
Theorem write_csv_non_entry (fails : NEOWriter.call → bool) :
  fails (NEOWriter.Open "data/neo_data_results.csv" "w") = false →
  fails (NEOWriter.Writeheader NEOWriter.fieldnames) = false →
  (∀ r, fails (NEOWriter.Writerow r) = false) →
  (∀ ns e rest, is_neo e = false →
     NEOWriter.write fails NEOWriter.init "csv_file" (map Neo ns ++ e :: rest) =
       (csv_opening ++ map (λ n, NEOWriter.Writerow (entry_row n)) ns,
        Raise AttributeError)) ∧
  (∀ order self q x res,
     set_order_spec order →
     Query.Selectors.return_object q = Some OrbitPath_class →
     NEOSearcher.get_objects order self q = Ok (x :: res) →
     NEOWriter.write fails NEOWriter.init "csv_file" (x :: res) =
       (csv_opening, Raise AttributeError)).
Proof.
  intros Ho Hh Hw.
  assert (Hstop : ∀ ns e rest, is_neo e = false →
     NEOWriter.write fails NEOWriter.init "csv_file" (map Neo ns ++ e :: rest) =
       (csv_opening ++ map (λ n, NEOWriter.Writerow (entry_row n)) ns,
        Raise AttributeError)).
  { intros ns e rest He. unfold NEOWriter.write. simpl. rewrite Ho, Hh.
    now apply write_rows_stop. }
  split; [exact Hstop|].
  intros order self q x res Hord Hro Hres.
  destruct (get_objects_members order self q _ Hord Hres) as (both & Hboth & Hmem).
  assert (Hx : x ∈ both.2).
  { specialize (Hmem x ltac:(left)). unfold shaped in Hmem. now rewrite Hro in Hmem. }
  destruct (filtered_events self q both x Hboth Hx) as (? & ? & ? & p & _ & _ & _ & ->).
  apply (Hstop [] (Path p) res). reflexivity.
Qed.

Lemma write_csv_non_entry_witness :
  NEOWriter.write never_fails NEOWriter.init "csv_file" [Path event_0101; Path event_0102] =
    (csv_opening, Raise AttributeError).
Proof.
  apply (proj2 (write_csv_non_entry never_fails eq_refl eq_refl (λ _, eq_refl))
           dedup (NEOSearcher.init index_A0) plan_paths (Path event_0101) [Path event_0102]);
    [apply dedup_order | reflexivity | reflexivity].
Defined.

(** ** The loop over the filters, in closed form *)

Lemma filter_filter_and {A : Type} (p q : A → bool) (l : list A) :
  List.filter q (List.filter p l) = List.filter (λ x, p x && q x) l.
Proof.
  induction l as [|x l IH]; [done|]. simpl.
  destruct (p x) eqn:Hp; simpl; [destruct (q x)|]; now rewrite IH.
Qed.

Lemma apply_each_filter (fs : list Filter.t) :
  ∀ xs ys, apply_each fs xs = Ok ys →
           ys = List.filter (λ x, forallb (λ f, passes f x) fs) xs.
Proof.
  induction fs as [|f fs IH]; intros xs ys H; simpl in H.
  - injection H as <-. induction xs as [|x xs IHxs]; [done|].
    cbn [List.filter forallb]. now f_equal.
  - bind_inv H. apply apply_Ok_filter in Ha as [-> _].
    rewrite (IH _ _ H). apply filter_filter_and.
Qed.

(** X23: when the loop over the filters of a plan returns, the entries it
    leaves are exactly those that pass every filter on a field other than the
    distance, in the order they had; the distance filters narrow nothing
    there, and the one handed over is the last of them. *)
Theorem filters_loop_survivors (fs : list Filter.t) (neos l : list entity)
    (df : option Filter.t) :
  NEOSearcher.apply_filters fs None neos = Ok (df, l) →
  l = List.filter (λ x, forallb (λ f, passes f x) (others fs)) neos ∧
  df = last (distances fs) ∧
  l `sublist_of` neos.
Proof.
  intros H. pose proof (apply_filters_sublist _ _ _ _ _ H) as Hsub.
  rewrite apply_filters_spec in H. bind_inv H. injection H as <- <-.
  split; [now apply apply_each_filter|]. split; [|done].
  now destruct (last _).
Qed.

Lemma filters_loop_survivors_witness :
  [Neo entry_ten] =
    List.filter (λ x, forallb (λ f, passes f x) (others [distance_gt_100; diameter_gt_03]))
                [Neo entry_ten; Neo entry_tenth] ∧
  Some distance_gt_100 = last (distances [distance_gt_100; diameter_gt_03]) ∧
  [Neo entry_ten] `sublist_of` [Neo entry_ten; Neo entry_tenth].
Proof.
  apply (filters_loop_survivors [distance_gt_100; diameter_gt_03]
           [Neo entry_ten; Neo entry_tenth]).
  vm_compute. reflexivity.
Defined.
